(** * Bucket dashboard (demo_app/app.py): a shallow embedding and its properties

    The Flask application of [demo_app/app.py] talks to an S3-compatible
    gateway through a boto3 client.  The client is an external collaborator:
    it is modelled as a record of operations over an abstract [World]; every
    call may succeed or raise, and may change the world.  Python code is
    embedded in a small state-and-exception monad in which the state
    survives a raised exception, as mutation does in Python. *)

From Stdlib Require Import ZArith String Ascii List Bool Lia.
From Stdlib Require Import Floats.SpecFloat.
From stdpp Require Import gmap strings list.

Local Open Scope Z_scope.
Local Open Scope string_scope.

(** ** Python results: a value, or a raised exception carrying [str(e)] *)

Inductive PyResult (A : Type) : Type :=
| Ok (a : A)
| Raise (e : string).
Arguments Ok {A} a.
Arguments Raise {A} e.

(** A computation over a state [S].  The state is returned in both cases. *)
Definition Py (S A : Type) : Type := S -> PyResult A * S.

Definition py_ret {S A} (a : A) : Py S A := fun s => (Ok a, s).

Definition py_bind {S A B} (m : Py S A) (k : A -> Py S B) : Py S B :=
  fun s =>
    match m s with
    | (Ok a, s') => k a s'
    | (Raise e, s') => (Raise e, s')
    end.

(** [try: body / except Exception as e: handler e] *)
Definition try_except {S A} (body : Py S A) (handler : string -> Py S A) : Py S A :=
  fun s =>
    match body s with
    | (Ok a, s') => (Ok a, s')
    | (Raise e, s') => handler e s'
    end.

#[global] Instance Py_ret {S} : MRet (Py S) := fun A => @py_ret S A.
#[global] Instance Py_bind {S} : MBind (Py S) := fun A B k m => @py_bind S A B m k.

(** [for x in l: body x]; an exception raised by the body leaves the loop. *)
Fixpoint for_each {S A} (l : list A) (body : A -> Py S unit) : Py S unit :=
  match l with
  | [] => mret tt
  | x :: rest => body x ≫= fun _ => for_each rest body
  end.

(** ** Data exchanged with the gateway *)

(** [datetime]: the fields [strftime] reads. *)
Record datetime := {
  year : Z; month : Z; day : Z; hour : Z; minute : Z; second : Z
}.

(** One dict of [resp['Contents']].  An S3 listing carries the key, the size
    in bytes and the modification time of every entry, so that the lookups
    [obj['Key']], [obj['Size']] and [obj['LastModified']] are field accesses. *)
Module Listed.
Record t := { Key : string; Size : Z; LastModified : datetime }.
End Listed.

(** The response of [list_objects_v2]; boto3 leaves ['Contents'] out for an
    empty bucket. *)
Record ListObjectsV2Output := { Contents : option (list Listed.t) }.

(** The response of [head_object]; the gateway may leave ['StorageClass'] out. *)
Record HeadObjectOutput := { head_StorageClass : option string }.

(** The response of [get_object]: a content type that may be absent and a
    streaming body whose [read()] may itself fail. *)
Record GetObjectOutput := {
  ContentType : option string;
  Body_read : PyResult (list Byte.byte)
}.

(** The boto3 client [s3], over an abstract world. *)
Record S3Client (World : Type) := {
  list_objects_v2 : forall (Bucket : string), World -> PyResult ListObjectsV2Output * World;
  head_object : forall (Bucket Key : string), World -> PyResult HeadObjectOutput * World;
  get_object : forall (Bucket Key : string), World -> PyResult GetObjectOutput * World;
  put_object : forall (Bucket Key : string) (Body : list Byte.byte) (ACL : string),
      World -> PyResult unit * World
}.
Arguments list_objects_v2 {World} _ _ _.
Arguments head_object {World} _ _ _ _.
Arguments get_object {World} _ _ _ _.
Arguments put_object {World} _ _ _ _ _ _.

(** The dicts appended to [objects]. *)
Record ObjectRecord := {
  Key : string; Size : Z; LastModified : datetime; StorageClass : string
}.

#[global] Instance datetime_eq_dec : EqDecision datetime.
Proof. solve_decision. Defined.
#[global] Instance ObjectRecord_eq_dec : EqDecision ObjectRecord.
Proof. solve_decision. Defined.

(** What a request handler runs in: the world behind the client, the text
    printed so far, and the messages flashed so far (message, category). *)
Record Env (World : Type) := {
  world : World;
  stdout : list string;
  flashes : list (string * string)
}.
Arguments world {World} _.
Arguments stdout {World} _.
Arguments flashes {World} _.
Arguments Build_Env {World} _ _ _.

(** Frames that contain the environment: a handler runs directly in [Env],
    a function with mutable local variables [L] in [L * Env]. *)
Class HasEnv (World S : Type) := {
  get_env : S -> Env World;
  set_env : Env World -> S -> S
}.

#[global] Instance HasEnv_self {World} : HasEnv World (Env World) :=
  {| get_env := fun env => env; set_env := fun env _ => env |}.
#[global] Instance HasEnv_frame {World L} : HasEnv World (L * Env World) :=
  {| get_env := snd; set_env := fun env s => (fst s, env) |}.

(** [print(line)] *)
Definition print {World S} `{HasEnv World S} (line : string) : Py S unit :=
  fun s =>
    let env := get_env s in
    (Ok tt, set_env {| world := world env; stdout := stdout env ++ [line];
                       flashes := flashes env |} s).

(** [flash(message, category)] *)
Definition flash {World S} `{HasEnv World S} (message category : string) : Py S unit :=
  fun s =>
    let env := get_env s in
    (Ok tt, set_env {| world := world env; stdout := stdout env;
                       flashes := flashes env ++ [(message, category)] |} s).

(** A call of a client operation (or of any other operation on the world). *)
Definition call {World S A} `{HasEnv World S}
    (op : World -> PyResult A * World) : Py S A :=
  fun s =>
    let env := get_env s in
    let '(r, w) := op (world env) in
    (r, set_env {| world := w; stdout := stdout env; flashes := flashes env |} s).

(** ** get_bucket_info *)

(** The three accumulators of [get_bucket_info]. *)
Record Locals := {
  objects : list ObjectRecord;
  total_bytes : Z;
  sc_counts : gmap string nat
}.

Definition update_locals {World} (f : Locals -> Locals) : Py (Locals * Env World) unit :=
  fun '(l, env) => (Ok tt, (f l, env)).

Section Aggregator.
Context {World : Type}.
Variable s3 : S3Client World.
Variable BUCKET_NAME : string.

(** Lines 55-61: [sc = "STANDARD"], then the guarded HEAD request. *)
Definition storage_class_of (key : string) : Py (Locals * Env World) string :=
  try_except
    (head ← call (head_object s3 BUCKET_NAME key);
     mret (default "STANDARD" (head_StorageClass head)))
    (fun _ => mret "STANDARD").

(** Lines 50-71: the body of the [for] loop. *)
Definition loop_body (obj : Listed.t) : Py (Locals * Env World) unit :=
  let key := Listed.Key obj in
  let size := Listed.Size obj in
  let last_modified := Listed.LastModified obj in
  _ ← update_locals (fun l =>
        {| objects := objects l; total_bytes := total_bytes l + size;
           sc_counts := sc_counts l |});
  sc ← storage_class_of key;
  _ ← update_locals (fun l =>
        {| objects := objects l; total_bytes := total_bytes l;
           sc_counts := <[sc := (default 0%nat (sc_counts l !! sc) + 1)%nat]> (sc_counts l) |});
  update_locals (fun l =>
        {| objects := objects l ++
                        [{| Key := key; Size := size; LastModified := last_modified;
                            StorageClass := sc |}];
           total_bytes := total_bytes l;
           sc_counts := sc_counts l |}).

(** Lines 47-74: the outer [try] / [except]. *)
Definition get_bucket_info_try : Py (Locals * Env World) unit :=
  try_except
    (resp ← call (list_objects_v2 s3 BUCKET_NAME);
     for_each (default [] (Contents resp)) loop_body)
    (fun e => print ("[WARN] Error listing bucket contents: " ++ e)).

Definition get_bucket_info : Py (Env World) (list ObjectRecord * Z * gmap string nat) :=
  fun env =>
    match get_bucket_info_try
            ({| objects := []; total_bytes := 0; sc_counts := ∅ |}, env) with
    | (Ok _, (l, env')) => (Ok (objects l, total_bytes l, sc_counts l), env')
    | (Raise e, (_, env')) => (Raise e, env')
    end.

End Aggregator.

(** ** Python numbers used by the usage figures

    A Python [float] is an IEEE-754 binary64 number: [spec_float] at
    precision 53 and maximal exponent 1024, with the operations of
    [SpecFloat].  A Python [int] is an unbounded integer. *)

Definition prec : Z := 53.
Definition emax : Z := 1024.

Inductive PyNum :=
| PyInt (n : Z)
| PyFloat (x : spec_float).

Definition lift {S A} (r : PyResult A) : Py S A := fun s => (r, s).

(** CPython raises [OverflowError] where C would produce an infinity. *)
Definition finite_or_overflow (msg : string) (x : spec_float) : PyResult spec_float :=
  match x with
  | S754_infinity _ => Raise msg
  | _ => Ok x
  end.

(** [a / b] on two ints: the correctly rounded quotient. *)
Definition py_truediv (a b : Z) : PyResult spec_float :=
  if (b =? 0)%Z then Raise "division by zero"
  else
    let negate := xorb (a <? 0)%Z (b <? 0)%Z in
    if (a =? 0)%Z then Ok (S754_zero negate)
    else
      let '(q, e, l) := SFdiv_core_binary prec emax (Z.abs a) 0 (Z.abs b) 0 in
      finite_or_overflow "integer division result too large for a float"
        (binary_round_aux prec emax negate q e l).

(** The integer nearest to [n / d] for [d > 0], ties to the even one. *)
Definition round_half_even_div (n d : Z) : Z :=
  let '(q, r) := Z.div_eucl n d in
  match (2 * r ?= d)%Z with
  | Lt => q
  | Gt => (q + 1)%Z
  | Eq => if Z.even q then q else (q + 1)%Z
  end.

(** [round(x, ndigits)] on a float, for [0 <= ndigits]: CPython prints the
    exact value of [x] with [ndigits] decimals, correctly rounded (ties to
    even), and reads the decimal back as the nearest float. *)
Definition py_round (x : spec_float) (ndigits : Z) : PyResult spec_float :=
  match x with
  | S754_finite s m e =>
      let scale := (10 ^ ndigits)%Z in
      let k := if (0 <=? e)%Z then (Zpos m * 2 ^ e * scale)%Z
               else round_half_even_div (Zpos m * scale) (2 ^ (- e)) in
      if (k =? 0)%Z then Ok (S754_zero s)
      else
        let '(q, e', l) := SFdiv_core_binary prec emax k 0 scale 0 in
        finite_or_overflow "rounded value too large to represent"
          (binary_round_aux prec emax s q e' l)
  | _ => Ok x
  end.

(** [float(n)] *)
Definition float_of_int (n : Z) : PyResult spec_float :=
  finite_or_overflow "int too large to convert to float"
    (binary_normalize prec emax n 0 false).

Definition float_is_zero (x : spec_float) : bool :=
  match x with S754_zero _ => true | _ => false end.

(** [x / y] on two floats *)
Definition float_truediv (x y : spec_float) : PyResult spec_float :=
  if float_is_zero y then Raise "float division by zero"
  else Ok (SFdiv prec emax x y).

(** [x * n] for a float [x] and an int [n] *)
Definition float_mul_int (x : spec_float) (n : Z) : PyResult spec_float :=
  match float_of_int n with
  | Ok y => Ok (SFmul prec emax x y)
  | Raise e => Raise e
  end.

(** [x > n] for a float [x] and an int [n] that a float represents exactly. *)
Definition float_gt_int (x : spec_float) (n : Z) : bool :=
  match SFcompare x (binary_normalize prec emax n 0 false) with
  | Some Gt => true
  | _ => false
  end.

(** [min(x, n)]: the second argument replaces the first when [n < x]. *)
Definition py_min (x : spec_float) (n : Z) : PyNum :=
  if float_gt_int x n then PyInt n else PyFloat x.

(** [0 <= v <= 100] as Python evaluates it. *)
Definition in_0_100 (v : PyNum) : bool :=
  match v with
  | PyInt n => (0 <=? n)%Z && (n <=? 100)%Z
  | PyFloat x =>
      SFleb (S754_zero false) x
      && SFleb x (binary_normalize prec emax 100 0 false)
  end.

(** [0 < q] for a float [q] *)
Definition float_positive (q : spec_float) : bool := SFltb (S754_zero false) q.


(** ** Strings

    A Python [str] that only holds ASCII text is a [string]; the file name
    sent by a browser is a sequence of Unicode code points. *)

Definition code (c : ascii) : N := N_of_ascii c.

Definition is_upper (c : ascii) : bool := (65 <=? code c)%N && (code c <=? 90)%N.
Definition is_lower (c : ascii) : bool := (97 <=? code c)%N && (code c <=? 122)%N.
Definition is_digit (c : ascii) : bool := (48 <=? code c)%N && (code c <=? 57)%N.

Definition lower_char (c : ascii) : ascii :=
  if is_upper c then ascii_of_N (code c + 32) else c.
Definition upper_char (c : ascii) : ascii :=
  if is_lower c then ascii_of_N (code c - 32) else c.

Fixpoint map_string (f : ascii -> ascii) (s : string) : string :=
  match s with
  | EmptyString => EmptyString
  | String c s' => String (f c) (map_string f s')
  end.

(** [s.lower()] *)
Definition lower (s : string) : string := map_string lower_char s.

(** [s.startswith(p)] *)
Definition startswith (s p : string) : bool := String.prefix p s.

(** [s.endswith(suffix)] *)
Definition endswith (s suffix : string) : bool :=
  let n := String.length s in
  let k := String.length suffix in
  (k <=? n)%nat && String.eqb (substring (n - k) k s) suffix.

(** [s.endswith((suffix1, suffix2, ...))] *)
Definition endswith_any (s : string) (suffixes : list string) : bool :=
  existsb (endswith s) suffixes.

Definition nl : string := String (ascii_of_nat 10) EmptyString.
Definition dquote : string := String (ascii_of_nat 34) EmptyString.

(** The code points of an ASCII string. *)
Definition codepoints (s : string) : list N := map N_of_ascii (list_ascii_of_string s).

(** ** The storage key of an upload *)

(** Decimal digits, as [strftime] prints them. *)
Definition digit_char (d : Z) : ascii := ascii_of_N (48 + Z.to_N d).

Definition two_digits (n : Z) : list ascii :=
  [digit_char (n / 10 mod 10); digit_char (n mod 10)].

Definition four_digits (n : Z) : list ascii :=
  [digit_char (n / 1000 mod 10); digit_char (n / 100 mod 10);
   digit_char (n / 10 mod 10); digit_char (n mod 10)].

(** [now.strftime('%Y%m%d%H%M%S_')] *)
Definition strftime_key_prefix (now : datetime) : string :=
  string_of_list_ascii
    (four_digits (year now) ++ two_digits (month now) ++ two_digits (day now)
     ++ two_digits (hour now) ++ two_digits (minute now) ++ two_digits (second now)
     ++ ["_"%char]).

(** What [datetime.utcnow()] can return in the years 1000 to 9999. *)
Definition valid_datetime (t : datetime) : Prop :=
  1000 <= year t <= 9999 /\ 1 <= month t <= 12 /\ 1 <= day t <= 31 /\
  0 <= hour t <= 23 /\ 0 <= minute t <= 59 /\ 0 <= second t <= 59.

(** The platform constants [secure_filename] reads from [os]. *)
Record Platform := {
  os_sep : ascii;
  os_altsep : option ascii;
  os_name_is_nt : bool;
  windows_device_files : list (list ascii)
}.

Definition posix : Platform :=
  {| os_sep := "/"%char; os_altsep := None; os_name_is_nt := false;
     windows_device_files := [] |}.

(** The characters the sanitiser keeps: [A-Za-z0-9_.-]. *)
Definition safe_char (c : ascii) : bool :=
  is_upper c || is_lower c || is_digit c
  || Ascii.eqb c "_" || Ascii.eqb c "." || Ascii.eqb c "-".

(** ASCII white space, as [str.split()] sees it. *)
Definition is_space (c : ascii) : bool :=
  ((9 <=? code c)%N && (code c <=? 13)%N)
  || ((28 <=? code c)%N && (code c <=? 32)%N).

(** [s.split()]: the maximal runs of non-space characters. *)
Fixpoint split_ws (word : list ascii) (s : list ascii) : list (list ascii) :=
  match s with
  | [] => match word with [] => [] | _ => [rev word] end
  | c :: s' =>
      if is_space c
      then match word with [] => split_ws [] s' | _ => rev word :: split_ws [] s' end
      else split_ws (c :: word) s'
  end.

(** [sep.join(words)] *)
Fixpoint join (sep : list ascii) (words : list (list ascii)) : list ascii :=
  match words with
  | [] => []
  | [w] => w
  | w :: rest => w ++ sep ++ join sep rest
  end.

Fixpoint lstrip (drop : ascii -> bool) (s : list ascii) : list ascii :=
  match s with
  | [] => []
  | c :: s' => if drop c then lstrip drop s' else s
  end.

(** [s.strip(chars)] *)
Definition strip (drop : ascii -> bool) (s : list ascii) : list ascii :=
  rev (lstrip drop (rev (lstrip drop s))).

(** [s.replace(sep, " ")] for a one-character [sep] *)
Definition replace_char (sep : ascii) (s : list ascii) : list ascii :=
  map (fun c => if Ascii.eqb c sep then " "%char else c) s.

(** [s.split(".")[0]] *)
Fixpoint before_dot (s : list ascii) : list ascii :=
  match s with
  | [] => []
  | c :: s' => if Ascii.eqb c "." then [] else c :: before_dot s'
  end.

Definition list_ascii_eqb (a b : list ascii) : bool :=
  String.eqb (string_of_list_ascii a) (string_of_list_ascii b).

Section SecureFilename.
Variable os : Platform.
(** [unicodedata.normalize("NFKD", _)], on code points; nothing is assumed
    of it. *)
Variable nfkd : list N -> list N.

(** Modelled from the spec: the sanitiser of display names is
    [werkzeug.utils.secure_filename], which [app.py] imports and which is not
    among the sources.  The spec says that it strips path separators and
    unsafe characters; the definition follows the library's steps: NFKD
    normalisation, dropping what is not ASCII, path separators to spaces,
    white-space runs to [_], removal of every character outside
    [A-Za-z0-9_.-], stripping of leading and trailing [.] and [_], and on
    Windows an underscore before a device name. *)
Definition secure_filename (filename : list N) : string :=
  let filename := nfkd filename in
  let filename := map ascii_of_N (filter (fun n => (n <? 128)%N) filename) in
  let filename := replace_char (os_sep os) filename in
  let filename :=
    match os_altsep os with
    | Some sep => replace_char sep filename
    | None => filename
    end in
  let filename :=
    strip (fun c => Ascii.eqb c "." || Ascii.eqb c "_")
          (filter safe_char (join ["_"%char] (split_ws [] filename))) in
  let filename :=
    if os_name_is_nt os
       && negb (list_ascii_eqb filename [])
       && existsb (list_ascii_eqb (map upper_char (before_dot filename)))
                  (windows_device_files os)
    then "_"%char :: filename
    else filename in
  string_of_list_ascii filename.

End SecureFilename.


(** ** The Flask views *)

(** An uploaded file part: the name the browser sent and the content.
    A part is falsy when its name is empty. *)
Record FileStorage := { filename : list N; stream_read : list Byte.byte }.

Record Request := {
  method : string;
  url : string;
  files : gmap string FileStorage
}.

(** The context handed to [render_template('index.html', ...)]. *)
Module Page.
Record t := {
  rgw_endpoint : string;
  bucket_name : string;
  objects : list ObjectRecord;
  used_mb : spec_float;
  bucket_quota_mb : spec_float;
  usage_percentage : PyNum;
  sc_counts : gmap string nat
}.
End Page.

(** The object handed to [jsonify] by [api_summary]. *)
Module Summary.
Record t := {
  sc_counts : gmap string nat;
  used_mb : spec_float;
  bucket_quota_mb : spec_float;
  usage_percentage : PyNum
}.
End Summary.

(** What a view returns. *)
Inductive Response :=
| Str (body : string)
| StrStatus (body : string) (status : Z)
| Redirect (location : string)
| RenderIndex (page : Page.t)
| JsonSummary (summary : Summary.t).

(** The status Flask sends for it. *)
Definition status_code (r : Response) : Z :=
  match r with
  | Str _ => 200
  | StrStatus _ status => status
  | Redirect _ => 302
  | RenderIndex _ => 200
  | JsonSummary _ => 200
  end.

Section App.
Context {World : Type}.
Variable s3 : S3Client World.
Variables BUCKET_NAME RGW_ENDPOINT : string.
Variable BUCKET_QUOTA_MB : spec_float.
(** [datetime.utcnow()] reads the clock of the world. *)
Variable utcnow : World -> PyResult datetime * World.
Variable os : Platform.
Variable nfkd : list N -> list N.
(** [bytes.decode('utf-8', errors='replace')], which never raises. *)
Variable decode_utf8_replace : list Byte.byte -> string.

(** [url_for('index')]: the route of [index]. *)
Definition url_for_index : string := "/".

(** Lines 90-110: [index] on a POST request. *)
Definition index_POST (request : Request) : Py (Env World) Response :=
  let upfile := files request !! "file" in
  match upfile with
  | None =>
      _ ← flash "No file selected." "warning";
      mret (Redirect (url request))
  | Some upfile =>
      if bool_decide (filename upfile = [])
      then
        _ ← flash "No file selected." "warning";
        mret (Redirect (url request))
      else
        _ ← try_except
              (let filename := secure_filename os nfkd (filename upfile) in
               now ← call utcnow;
               let s3_key := strftime_key_prefix now ++ filename in
               _ ← call (put_object s3 BUCKET_NAME s3_key (stream_read upfile) "public-read");
               flash ("File '" ++ filename ++ "' uploaded successfully!") "success")
              (fun e => flash ("Upload failed: " ++ e) "danger");
        mret (Redirect url_for_index)
  end.

(** Lines 113-126: [index] on a GET request. *)
Definition index_GET : Py (Env World) Response :=
  '(objects, total_bytes, sc_counts) ← get_bucket_info s3 BUCKET_NAME;
  quotient ← lift (py_truediv total_bytes (1024 * 1024));
  used_mb ← lift (py_round quotient 2);
  ratio ← lift (float_truediv used_mb BUCKET_QUOTA_MB);
  percent ← lift (float_mul_int ratio 100);
  let usage_percentage := py_min percent 100 in
  mret (RenderIndex
          {| Page.rgw_endpoint := RGW_ENDPOINT;
             Page.bucket_name := BUCKET_NAME;
             Page.objects := objects;
             Page.used_mb := used_mb;
             Page.bucket_quota_mb := BUCKET_QUOTA_MB;
             Page.usage_percentage := usage_percentage;
             Page.sc_counts := sc_counts |}).

Definition index (request : Request) : Py (Env World) Response :=
  if String.eqb (method request) "POST" then index_POST request else index_GET.

(** Lines 144-151: the f-string returned for an image. *)
Definition image_page (key : string) : string :=
  nl ++
  "            <html>" ++ nl ++
  "              <body>" ++ nl ++
  "                <h3>Preview: " ++ key ++ "</h3>" ++ nl ++
  "                <img src=" ++ dquote ++ RGW_ENDPOINT ++ "/" ++ BUCKET_NAME ++ "/"
    ++ key ++ dquote ++ " alt=" ++ dquote ++ "Image preview" ++ dquote ++ " />" ++ nl ++
  "              </body>" ++ nl ++
  "            </html>" ++ nl ++
  "            ".

(** Lines 129-156: [preview]. *)
Definition preview (key : string) : Py (Env World) Response :=
  try_except
    (obj ← call (get_object s3 BUCKET_NAME key);
     let content_type := default "" (ContentType obj) in
     data ← lift (Body_read obj);
     if startswith content_type "text" || endswith_any (lower key) [".txt"; ".log"]
     then mret (Str (decode_utf8_replace data))
     else if endswith_any (lower key) [".png"; ".jpg"; ".jpeg"; ".gif"]
     then mret (Str (image_page key))
     else mret (StrStatus "Preview not available for this file type." 400))
    (fun e => mret (StrStatus ("Error previewing file: " ++ e) 500)).

(** Lines 176-185: [api_summary]. *)
Definition api_summary : Py (Env World) Response :=
  '(objects, total_bytes, sc_counts) ← get_bucket_info s3 BUCKET_NAME;
  quotient ← lift (py_truediv total_bytes (1024 * 1024));
  used_mb ← lift (py_round quotient 2);
  ratio ← lift (float_truediv used_mb BUCKET_QUOTA_MB);
  percent ← lift (float_mul_int ratio 100);
  let usage_percentage := py_min percent 100 in
  mret (JsonSummary
          {| Summary.sc_counts := sc_counts;
             Summary.used_mb := used_mb;
             Summary.bucket_quota_mb := BUCKET_QUOTA_MB;
             Summary.usage_percentage := usage_percentage |}).

End App.

(** ** The JSON inventory and the health check *)

(** One dict of the array [api_filelist] hands to [jsonify]: a record whose
    modification time has been replaced by its string form. *)
Module FileList.
Record t := { Key : string; Size : Z; LastModified : string; StorageClass : string }.
End FileList.

Section Api.
Context {World : Type}.
Variable s3 : S3Client World.
Variable BUCKET_NAME : string.
(** [str(_)] on a [datetime]; it never raises, and nothing else is assumed
    of it. *)
Variable str_datetime : datetime -> string.

(** Line 167: [o['LastModified'] = str(o['LastModified'])]. *)
Definition stringify (o : ObjectRecord) : FileList.t :=
  {| FileList.Key := Key o; FileList.Size := Size o;
     FileList.LastModified := str_datetime (LastModified o);
     FileList.StorageClass := StorageClass o |}.

(** Lines 164-168: [api_filelist]; the value is the list handed to
    [jsonify], sent with status 200.  The loop rewrites one field of every
    dict of the list, each dict being referenced from the list only. *)
Definition api_filelist : Py (Env World) (list FileList.t) :=
  '(objects, total_bytes, sc_counts) ← get_bucket_info s3 BUCKET_NAME;
  mret (map stringify objects).

(** Lines 188-192: [healthz]; the status text and the status code. *)
Definition healthz : Py (Env World) (string * Z) := mret ("OK", 200).

End Api.

(** ** Configuration defaults (lines 15-21) *)

Definition default_BUCKET_NAME : string := "tierbucket".
Definition default_RGW_ENDPOINT : string := "https://s3.mad.eu.cephlabs.com".
(** [float(20)] *)
Definition default_BUCKET_QUOTA_MB : spec_float :=
  S754_finite false 5629499534213120 (-48).

(** ** An in-memory gateway

    A small S3 stand-in on which the views can be run: a list of objects in
    listing order, a switch that makes the listing fail, the keys whose HEAD
    and GET requests fail, a clock, and a log of the client calls made. *)

Module Fake.

Record Object := {
  key : string;
  size : Z;
  mtime : datetime;
  storage_class : option string;
  content_type : option string;
  body : list Byte.byte
}.

Record World := {
  bucket : list Object;
  listing_error : option string;
  unreachable : list string;
  clock : datetime;
  calls : list string
}.

Definition log (name : string) (w : World) : World :=
  {| bucket := bucket w; listing_error := listing_error w;
     unreachable := unreachable w; clock := clock w;
     calls := calls w ++ [name] |}.

Definition find_object (k : string) (w : World) : option Object :=
  List.find (fun o => String.eqb (key o) k) (bucket w).

Definition is_unreachable (k : string) (w : World) : bool :=
  existsb (String.eqb k) (unreachable w).

Definition fake_list_objects_v2 (Bucket : string) (w : World)
  : PyResult ListObjectsV2Output * World :=
  match listing_error w with
  | Some e => (Raise e, log "list_objects_v2" w)
  | None =>
      (Ok {| Contents :=
               match bucket w with
               | [] => None
               | objs =>
                   Some (map (fun o => {| Listed.Key := key o; Listed.Size := size o;
                                          Listed.LastModified := mtime o |}) objs)
               end |},
       log "list_objects_v2" w)
  end.

Definition fake_head_object (Bucket k : string) (w : World)
  : PyResult HeadObjectOutput * World :=
  if is_unreachable k w then (Raise "ClientError", log "head_object" w)
  else
    match find_object k w with
    | Some o => (Ok {| head_StorageClass := storage_class o |}, log "head_object" w)
    | None => (Raise "Not Found", log "head_object" w)
    end.

Definition fake_get_object (Bucket k : string) (w : World)
  : PyResult GetObjectOutput * World :=
  if is_unreachable k w then (Raise "ClientError", log "get_object" w)
  else
    match find_object k w with
    | Some o =>
        (Ok {| ContentType := content_type o; Body_read := Ok (body o) |},
         log "get_object" w)
    | None => (Raise "NoSuchKey", log "get_object" w)
    end.

Definition fake_put_object (Bucket k : string) (data : list Byte.byte) (ACL : string)
    (w : World) : PyResult unit * World :=
  (Ok tt,
   {| bucket :=
        List.filter (fun o => negb (String.eqb (key o) k)) (bucket w)
        ++ [{| key := k; size := Z.of_nat (length data); mtime := clock w;
               storage_class := None; content_type := None; body := data |}];
      listing_error := listing_error w;
      unreachable := unreachable w;
      clock := clock w;
      calls := calls w ++ ["put_object"] |}).

Definition s3 : S3Client World :=
  {| list_objects_v2 := fake_list_objects_v2;
     head_object := fake_head_object;
     get_object := fake_get_object;
     put_object := fake_put_object |}.

Definition utcnow (w : World) : PyResult datetime * World := (Ok (clock w), w).

Definition new_year : datetime :=
  {| year := 2025; month := 1; day := 2; hour := 3; minute := 4; second := 5 |}.

Definition object (k : string) (n : Z) (sc : option string) : Object :=
  {| key := k; size := n; mtime := new_year; storage_class := sc;
     content_type := None; body := [] |}.

Definition world_of (objs : list Object) : World :=
  {| bucket := objs; listing_error := None; unreachable := [];
     clock := new_year; calls := [] |}.

Definition env_of (w : World) : Env World :=
  {| world := w; stdout := []; flashes := [] |}.

(** A bucket of two objects of 1 MB and 2 MB; the gateway reports no
    storage class for the first and GLACIER for the second. *)
Definition two_objects : World :=
  world_of [object "a.txt" 1048576 None; object "b.bin" 2097152 (Some "GLACIER")].

(** The same bucket when no HEAD request gets through. *)
Definition heads_down : World :=
  {| bucket := bucket two_objects; listing_error := None;
     unreachable := ["a.txt"; "b.bin"]; clock := new_year; calls := [] |}.

(** The same bucket when only the HEAD request for the second object fails. *)
Definition second_head_down : World :=
  {| bucket := bucket two_objects; listing_error := None;
     unreachable := ["b.bin"]; clock := new_year; calls := [] |}.

(** The same bucket when the listing itself fails. *)
Definition listing_down : World :=
  {| bucket := bucket two_objects; listing_error := Some "EndpointConnectionError";
     unreachable := []; clock := new_year; calls := [] |}.

(** A bucket holding an archive, and the same bucket when it cannot be read. *)
Definition with_archive : World :=
  world_of [ {| key := "backup.tar"; size := 3; mtime := new_year;
                storage_class := None; content_type := Some "application/x-tar";
                body := [Byte.x01; Byte.x02; Byte.x03] |} ].

Definition archive_unreachable : World :=
  {| bucket := bucket with_archive; listing_error := None;
     unreachable := ["backup.tar"]; clock := new_year; calls := [] |}.

(** A POST request without a file part, and one whose part has no name. *)
Definition post_without_file : Request :=
  {| method := "POST"; url := "http://localhost:5000/"; files := ∅ |}.

Definition post_with_empty_name : Request :=
  {| method := "POST"; url := "http://localhost:5000/";
     files := {[ "file" := {| filename := []; stream_read := [Byte.x41] |} ]} |}.

(** A POST request that uploads three bytes under a name that tries to
    climb out of the bucket. *)
Definition post_traversal : Request :=
  {| method := "POST"; url := "http://localhost:5000/";
     files := {[ "file" := {| filename := codepoints "../../etc/passwd";
                              stream_read := [Byte.x41; Byte.x42; Byte.x43] |} ]} |}.

(** A GET request for the main page. *)
Definition get_index : Request :=
  {| method := "GET"; url := "http://localhost:5000/"; files := ∅ |}.

(** A bucket whose only object reports a size of [2 ^ 1044] bytes. *)
Definition astronomical : World := world_of [object "huge.bin" (2 ^ 1044) None].

End Fake.

(** A bucket holding a text object whose key ends like an image, and a
    picture whose key is in upper case. *)
Definition notes_and_picture : Fake.World :=
  Fake.world_of
    [ {| Fake.key := "notes.png"; Fake.size := 2; Fake.mtime := Fake.new_year;
         Fake.storage_class := None; Fake.content_type := Some "text/plain";
         Fake.body := [Byte.x68; Byte.x69] |};
      {| Fake.key := "HOLIDAY.JPG"; Fake.size := 3; Fake.mtime := Fake.new_year;
         Fake.storage_class := None; Fake.content_type := Some "image/jpeg";
         Fake.body := [Byte.xff; Byte.xd8; Byte.xff] |} ].

(** A POST request that uploads one byte as [report.txt]. *)
Definition post_report : Request :=
  {| method := "POST"; url := "http://localhost:5000/";
     files := {[ "file" := {| filename := codepoints "report.txt";
                              stream_read := [Byte.x41] |} ]} |}.

(** ** Notions used to state the properties *)

(** The entries of a listing response: [resp.get('Contents', [])]. *)
Definition listing (resp : ListObjectsV2Output) : list Listed.t :=
  default [] (Contents resp).

(** The storage class a HEAD answer resolves to. *)
Definition class_of_answer (r : PyResult HeadObjectOutput) : string :=
  match r with
  | Ok head => default "STANDARD" (head_StorageClass head)
  | Raise _ => "STANDARD"
  end.

(** The record built from a listed entry and a storage class. *)
Definition record_of (obj : Listed.t) (sc : string) : ObjectRecord :=
  {| Key := Listed.Key obj; Size := Listed.Size obj;
     LastModified := Listed.LastModified obj; StorageClass := sc |}.

(** The answers the gateway gives when HEAD is called for the entries of
    [l] one after the other, starting in world [w]. *)
Fixpoint head_answers {World} (s3 : S3Client World) (bucket : string)
    (l : list Listed.t) (w : World) : list (PyResult HeadObjectOutput) :=
  match l with
  | [] => []
  | obj :: rest =>
      let '(r, w') := head_object s3 bucket (Listed.Key obj) w in
      r :: head_answers s3 bucket rest w'
  end.

(** The number of records bearing class [c]. *)
Definition count_class (c : string) (objs : list ObjectRecord) : nat :=
  length (filter (fun o => StorageClass o = c) objs).

(** The sum of the values of a histogram. *)
Definition sum_counts (m : gmap string nat) : nat :=
  map_fold (fun _ n acc => (n + acc)%nat) 0%nat m.

(** The sum of the sizes of a list of records. *)
Definition sum_sizes (objs : list ObjectRecord) : Z :=
  foldr (fun o acc => Size o + acc) 0 objs.

(** A call that raised. *)
Definition failed {A} (r : PyResult A) : Prop := exists e, r = Raise e.

(** The number a string of decimal digits denotes. *)
Definition decimal (digits : list ascii) : Z :=
  fold_left (fun acc c => 10 * acc + (Z.of_N (code c) - 48)) digits 0.

(** The fourteen digits of the time stamp. *)
Definition stamp_digits (now : datetime) : list ascii :=
  four_digits (year now) ++ two_digits (month now) ++ two_digits (day now)
  ++ two_digits (hour now) ++ two_digits (minute now) ++ two_digits (second now).

(** What the object-body lookup of [preview] obtains: the declared content
    type (empty when absent) and the bytes read, or the failure of
    [get_object] or of [read()]. *)
Definition fetched (r : PyResult GetObjectOutput) : PyResult (string * list Byte.byte) :=
  match r with
  | Raise e => Raise e
  | Ok obj =>
      match Body_read obj with
      | Raise e => Raise e
      | Ok data => Ok (default "" (ContentType obj), data)
      end
  end.

(** The sign of a float that is not a NaN. *)
Definition has_sign (s : bool) (x : spec_float) : Prop :=
  match x with
  | S754_zero s' | S754_infinity s' | S754_finite s' _ _ => s' = s
  | S754_nan => False
  end.

(** A zero, or a finite float below [2 ^ k] in absolute value. *)
Definition finite_below (k : Z) (x : spec_float) : Prop :=
  match x with
  | S754_zero _ => True
  | S754_finite _ m e => Zdigits2 (Zpos m) + e <= k /\ e <= emax - prec
  | _ => False
  end.

(** A zero, or a finite float whose mantissa and exponent fit binary64. *)
Definition finite_float (x : spec_float) : Prop :=
  match x with
  | S754_zero _ => True
  | S754_finite _ m e => Zdigits2 (Zpos m) <= prec /\ e <= emax - prec
  | _ => False
  end.

(** One turn of the loop, as a function on the accumulators. *)
Definition add_record (loc : Locals) (r : ObjectRecord) : Locals :=
  {| objects := objects loc ++ [r];
     total_bytes := total_bytes loc + Size r;
     sc_counts :=
       <[StorageClass r := (default 0%nat (sc_counts loc !! StorageClass r) + 1)%nat]>
         (sc_counts loc) |}.

(** The world left by the HEAD calls for the entries of [l]. *)
Fixpoint world_after_heads {World} (s3 : S3Client World) (bucket : string)
    (l : list Listed.t) (w : World) : World :=
  match l with
  | [] => w
  | obj :: rest =>
      world_after_heads s3 bucket rest (snd (head_object s3 bucket (Listed.Key obj) w))
  end.

(** The records the loop builds for the entries of [l] from world [w]. *)
Definition records_of {World} (s3 : S3Client World) (bucket : string)
    (l : list Listed.t) (w : World) : list ObjectRecord :=
  zip_with record_of l (map class_of_answer (head_answers s3 bucket l w)).

(** The environment [env] once the world has become [w]. *)
Definition with_world {World} (env : Env World) (w : World) : Env World :=
  {| world := w; stdout := stdout env; flashes := flashes env |}.

(** Lines 43-45: the accumulators at the start. *)
Definition no_locals : Locals := {| objects := []; total_bytes := 0; sc_counts := ∅ |}.

(** The histogram holds, for every label, the number of records bearing it,
    and no entry for a label that no record bears. *)
Definition histogram_of (m : gmap string nat) (objs : list ObjectRecord) : Prop :=
  forall c : string,
    m !! c = match count_class c objs with
             | O => None
             | S n => Some (S n)
             end.

(** The sum of the sizes of the entries of a listing. *)
Definition listed_bytes (l : list Listed.t) : Z :=
  foldr (fun obj acc => Listed.Size obj + acc) 0 l.

(** The number of entries of the JSON inventory bearing class [c]. *)
Definition count_entries (c : string) (entries : list FileList.t) : nat :=
  length (filter (fun o => FileList.StorageClass o = c) entries).

(** The warning printed for a failed listing, and nothing for a listing
    that succeeded. *)
Definition listing_warning (r : PyResult ListObjectsV2Output) : list string :=
  match r with
  | Ok _ => []
  | Raise e => ["[WARN] Error listing bucket contents: " ++ e]
  end.

(** A listing call that failed, or returned no entry. *)
Definition nothing_listed (r : PyResult ListObjectsV2Output) : Prop :=
  match r with
  | Ok resp => listing resp = []
  | Raise _ => True
  end.

(** * Properties *)

(** ** The loop of get_bucket_info *)

Section AggregatorFacts.
Context {World : Type}.
Variable s3 : S3Client World.
Variable BUCKET_NAME : string.

Lemma storage_class_of_run (key : string) (loc : Locals) (env : Env World) :
  storage_class_of s3 BUCKET_NAME key (loc, env) =
  (Ok (class_of_answer (fst (head_object s3 BUCKET_NAME key (world env)))),
   (loc, with_world env (snd (head_object s3 BUCKET_NAME key (world env))))).
Proof.
  unfold storage_class_of, try_except, mbind, Py_bind, py_bind, call, mret, Py_ret,
    py_ret, with_world; simpl.
  destruct (head_object s3 BUCKET_NAME key (world env)) as [[head|e] w]; reflexivity.
Qed.

Lemma loop_body_run (obj : Listed.t) (loc : Locals) (env : Env World) :
  loop_body s3 BUCKET_NAME obj (loc, env) =
  (Ok tt,
   (add_record loc
      (record_of obj
         (class_of_answer (fst (head_object s3 BUCKET_NAME (Listed.Key obj) (world env))))),
    with_world env (snd (head_object s3 BUCKET_NAME (Listed.Key obj) (world env))))).
Proof.
  unfold loop_body.
  unfold mbind at 1, Py_bind, py_bind. simpl.
  unfold mbind at 1. unfold py_bind. rewrite storage_class_of_run.
  reflexivity.
Qed.

Lemma records_of_cons (obj : Listed.t) (rest : list Listed.t) (w : World) :
  records_of s3 BUCKET_NAME (obj :: rest) w =
  record_of obj (class_of_answer (fst (head_object s3 BUCKET_NAME (Listed.Key obj) w)))
  :: records_of s3 BUCKET_NAME rest (snd (head_object s3 BUCKET_NAME (Listed.Key obj) w)).
Proof.
  unfold records_of; simpl.
  destruct (head_object s3 BUCKET_NAME (Listed.Key obj) w) as [r w']; reflexivity.
Qed.

Lemma for_each_run (l : list Listed.t) : forall (loc : Locals) (env : Env World),
  for_each l (loop_body s3 BUCKET_NAME) (loc, env) =
  (Ok tt,
   (foldl add_record loc (records_of s3 BUCKET_NAME l (world env)),
    with_world env (world_after_heads s3 BUCKET_NAME l (world env)))).
Proof.
  induction l as [|obj rest IH]; intros loc env.
  - destruct env; reflexivity.
  - cbn [for_each]. unfold mbind, Py_bind, py_bind.
    rewrite loop_body_run, IH, records_of_cons. reflexivity.
Qed.

End AggregatorFacts.

(** ** The accumulators *)

Lemma foldl_add_record_objects (rs : list ObjectRecord) : forall loc : Locals,
  objects (foldl add_record loc rs) = (objects loc ++ rs)%list.
Proof.
  induction rs as [|r rs IH]; intros loc; simpl.
  - by rewrite app_nil_r.
  - rewrite IH. simpl. by rewrite <- app_assoc.
Qed.

Lemma sum_sizes_app (xs ys : list ObjectRecord) :
  sum_sizes (xs ++ ys)%list = sum_sizes xs + sum_sizes ys.
Proof. unfold sum_sizes. induction xs as [|x xs IH]; simpl; lia. Qed.

Lemma foldl_add_record_total (rs : list ObjectRecord) : forall loc : Locals,
  total_bytes (foldl add_record loc rs) = total_bytes loc + sum_sizes rs.
Proof.
  induction rs as [|r rs IH]; intros loc; simpl.
  - unfold sum_sizes; simpl; lia.
  - rewrite IH. unfold sum_sizes; simpl. lia.
Qed.

Lemma sum_counts_empty : sum_counts ∅ = 0%nat.
Proof. unfold sum_counts. apply map_fold_empty. Qed.

Lemma sum_counts_insert_fresh (m : gmap string nat) (c : string) (n : nat) :
  m !! c = None -> sum_counts (<[c := n]> m) = (n + sum_counts m)%nat.
Proof.
  intros Hc. unfold sum_counts. apply map_fold_insert_L; [|done].
  intros; lia.
Qed.

(** [sc_counts[sc] = sc_counts.get(sc, 0) + 1] adds one to the sum. *)
Lemma sum_counts_tally (m : gmap string nat) (c : string) :
  sum_counts (<[c := (default 0%nat (m !! c) + 1)%nat]> m) = S (sum_counts m).
Proof.
  destruct (m !! c) as [n|] eqn:Hc; simpl.
  - rewrite <- (insert_delete_eq m c).
    rewrite sum_counts_insert_fresh by apply lookup_delete_eq.
    rewrite <- (insert_delete_id m c n) at 2 by done.
    rewrite sum_counts_insert_fresh by apply lookup_delete_eq. lia.
  - rewrite sum_counts_insert_fresh by done. lia.
Qed.

Lemma foldl_add_record_sum (rs : list ObjectRecord) : forall loc : Locals,
  sum_counts (sc_counts (foldl add_record loc rs)) =
  (sum_counts (sc_counts loc) + length rs)%nat.
Proof.
  induction rs as [|r rs IH]; intros loc; simpl.
  - lia.
  - rewrite IH. simpl. rewrite sum_counts_tally. lia.
Qed.

Lemma count_class_snoc (c : string) (objs : list ObjectRecord) (r : ObjectRecord) :
  count_class c (objs ++ [r])%list =
  (count_class c objs + if decide (StorageClass r = c) then 1 else 0)%nat.
Proof.
  unfold count_class. rewrite filter_app, length_app.
  rewrite filter_cons, filter_nil. case_decide; simpl; lia.
Qed.

Lemma histogram_of_add_record (loc : Locals) (r : ObjectRecord) :
  histogram_of (sc_counts loc) (objects loc) ->
  histogram_of (sc_counts (add_record loc r)) (objects (add_record loc r)).
Proof.
  intros H c. simpl. rewrite count_class_snoc.
  destruct (decide (StorageClass r = c)) as [->|Hne].
  - rewrite lookup_insert_eq, (H c).
    destruct (count_class c (objects loc)) as [|n]; simpl.
    + reflexivity.
    + replace (S n + 1)%nat with (S (S n)) by lia. reflexivity.
  - rewrite lookup_insert_ne by done. rewrite (H c).
    by rewrite Nat.add_0_r.
Qed.

Lemma histogram_of_foldl (rs : list ObjectRecord) : forall loc : Locals,
  histogram_of (sc_counts loc) (objects loc) ->
  histogram_of (sc_counts (foldl add_record loc rs)) (objects (foldl add_record loc rs)).
Proof.
  induction rs as [|r rs IH]; intros loc H; simpl; [done|].
  apply IH. by apply histogram_of_add_record.
Qed.

Lemma histogram_of_no_locals : histogram_of (sc_counts no_locals) (objects no_locals).
Proof. intros c. simpl. apply lookup_empty. Qed.

(** ** What get_bucket_info returns *)

Section AggregatorResult.
Context {World : Type}.
Variable s3 : S3Client World.
Variable BUCKET_NAME : string.

Lemma head_answers_length (l : list Listed.t) : forall w : World,
  length (head_answers s3 BUCKET_NAME l w) = length l.
Proof.
  induction l as [|obj rest IH]; intros w; simpl; [done|].
  destruct (head_object s3 BUCKET_NAME (Listed.Key obj) w) as [r w']; simpl.
  by rewrite IH.
Qed.

Lemma records_of_length (l : list Listed.t) (w : World) :
  length (records_of s3 BUCKET_NAME l w) = length l.
Proof.
  unfold records_of. rewrite length_zip_with, length_map, head_answers_length. lia.
Qed.

Lemma records_of_lookup (l : list Listed.t) (w : World) (i : nat) (obj : Listed.t)
    (r : PyResult HeadObjectOutput) :
  l !! i = Some obj ->
  head_answers s3 BUCKET_NAME l w !! i = Some r ->
  records_of s3 BUCKET_NAME l w !! i = Some (record_of obj (class_of_answer r)).
Proof.
  intros Hobj Hr. unfold records_of.
  rewrite lookup_zip_with, Hobj, list_lookup_fmap, Hr. reflexivity.
Qed.

Lemma head_answers_lookup (l : list Listed.t) (w : World) (i : nat) (obj : Listed.t) :
  l !! i = Some obj -> exists r, head_answers s3 BUCKET_NAME l w !! i = Some r.
Proof.
  intros Hobj. apply lookup_lt_is_Some_2.
  rewrite head_answers_length. by apply lookup_lt_Some in Hobj.
Qed.

Lemma get_bucket_info_listed (env : Env World) (resp : ListObjectsV2Output) (w : World) :
  list_objects_v2 s3 BUCKET_NAME (world env) = (Ok resp, w) ->
  get_bucket_info s3 BUCKET_NAME env =
  (Ok (records_of s3 BUCKET_NAME (listing resp) w,
       sum_sizes (records_of s3 BUCKET_NAME (listing resp) w),
       sc_counts (foldl add_record no_locals (records_of s3 BUCKET_NAME (listing resp) w))),
   with_world env (world_after_heads s3 BUCKET_NAME (listing resp) w)).
Proof.
  intros Hlist.
  unfold get_bucket_info, get_bucket_info_try, try_except, mbind, Py_bind, py_bind, call.
  simpl. rewrite Hlist. simpl.
  fold (listing resp). rewrite for_each_run. simpl.
  fold no_locals.
  rewrite foldl_add_record_objects, foldl_add_record_total. reflexivity.
Qed.

Lemma get_bucket_info_unlisted (env : Env World) (e : string) (w : World) :
  list_objects_v2 s3 BUCKET_NAME (world env) = (Raise e, w) ->
  get_bucket_info s3 BUCKET_NAME env =
  (Ok ([], 0, ∅),
   {| world := w;
      stdout := stdout env ++ ["[WARN] Error listing bucket contents: " ++ e];
      flashes := flashes env |}).
Proof.
  intros Hlist.
  unfold get_bucket_info, get_bucket_info_try, try_except, mbind, Py_bind, py_bind, call.
  simpl. rewrite Hlist. reflexivity.
Qed.

(** Whatever the gateway does, the result is the fold of [add_record] over
    the records built. *)
Lemma get_bucket_info_fold (env : Env World) :
  exists (rs : list ObjectRecord) (env' : Env World),
    get_bucket_info s3 BUCKET_NAME env =
    (Ok (rs, sum_sizes rs, sc_counts (foldl add_record no_locals rs)), env')
    /\ (forall resp w, list_objects_v2 s3 BUCKET_NAME (world env) = (Ok resp, w) ->
          rs = records_of s3 BUCKET_NAME (listing resp) w).
Proof.
  destruct (list_objects_v2 s3 BUCKET_NAME (world env)) as [[resp|e] w] eqn:Hlist.
  - eexists _, _. split; [by apply get_bucket_info_listed|].
    intros resp' w' [= <- <-]. reflexivity.
  - eexists [], _. split; [by apply (get_bucket_info_unlisted env e w)|].
    intros resp' w' [=].
Qed.

Lemma histogram_of_records (rs : list ObjectRecord) :
  histogram_of (sc_counts (foldl add_record no_locals rs)) rs.
Proof.
  pose proof (histogram_of_foldl rs no_locals histogram_of_no_locals) as H.
  by rewrite foldl_add_record_objects in H.
Qed.

Lemma sum_counts_records (rs : list ObjectRecord) :
  sum_counts (sc_counts (foldl add_record no_locals rs)) = length rs.
Proof. rewrite foldl_add_record_sum. simpl. by rewrite sum_counts_empty. Qed.

End AggregatorResult.

(** ** The aggregation contract *)

Lemma records_of_all_failed {World} (s3 : S3Client World) (BUCKET_NAME : string)
    (l : list Listed.t) : forall w : World,
  Forall failed (head_answers s3 BUCKET_NAME l w) ->
  records_of s3 BUCKET_NAME l w = map (fun obj => record_of obj "STANDARD") l.
Proof.
  induction l as [|obj rest IH]; intros w Hall; [reflexivity|].
  rewrite records_of_cons. simpl in Hall |- *.
  destruct (head_object s3 BUCKET_NAME (Listed.Key obj) w) as [r w'].
  inversion Hall as [|? ? [e ->] Hrest]; subst. simpl.
  f_equal. by apply IH.
Qed.

(** C1. When the listing call returns N entries, [get_bucket_info] returns
    normally and its [objects] list has exactly N records, the i-th one built
    from the i-th listed entry (same key, size and modification time), whatever
    the HEAD requests answer; when every HEAD request fails the list is the
    listing with class STANDARD throughout. *)
Theorem get_bucket_info_one_record_per_listed_entry {World} (s3 : S3Client World)
    (BUCKET_NAME : string) (env : Env World) (resp : ListObjectsV2Output) (w : World) :
  list_objects_v2 s3 BUCKET_NAME (world env) = (Ok resp, w) ->
  exists objs total counts env',
    get_bucket_info s3 BUCKET_NAME env = (Ok (objs, total, counts), env')
    /\ length objs = length (listing resp)
    /\ (forall i obj, listing resp !! i = Some obj ->
          exists sc, objs !! i = Some (record_of obj sc))
    /\ (Forall failed (head_answers s3 BUCKET_NAME (listing resp) w) ->
          objs = map (fun obj => record_of obj "STANDARD") (listing resp)).
Proof.
  intros Hlist. eexists _, _, _, _.
  split; [by apply get_bucket_info_listed|].
  split; [apply records_of_length|].
  split.
  - intros i obj Hobj.
    destruct (head_answers_lookup s3 BUCKET_NAME _ w i obj Hobj) as [r Hr].
    exists (class_of_answer r). by apply records_of_lookup.
  - apply records_of_all_failed.
Qed.

Lemma get_bucket_info_one_record_per_listed_entry_witness :
  exists objs total counts env',
    get_bucket_info Fake.s3 default_BUCKET_NAME (Fake.env_of Fake.heads_down)
      = (Ok (objs, total, counts), env')
    /\ length objs = 2%nat
    /\ (forall i obj,
          [ {| Listed.Key := "a.txt"; Listed.Size := 1048576;
               Listed.LastModified := Fake.new_year |};
            {| Listed.Key := "b.bin"; Listed.Size := 2097152;
               Listed.LastModified := Fake.new_year |} ] !! i = Some obj ->
          exists sc, objs !! i = Some (record_of obj sc))
    /\ (Forall (@failed HeadObjectOutput) [Raise "ClientError"; Raise "ClientError"] ->
          objs = [ {| Key := "a.txt"; Size := 1048576; LastModified := Fake.new_year;
                      StorageClass := "STANDARD" |};
                   {| Key := "b.bin"; Size := 2097152; LastModified := Fake.new_year;
                      StorageClass := "STANDARD" |} ]).
Proof.
  exact (get_bucket_info_one_record_per_listed_entry Fake.s3 default_BUCKET_NAME
           (Fake.env_of Fake.heads_down) _ _ eq_refl).
Defined.

Lemma count_class_pos (c : string) (objs : list ObjectRecord) (i : nat) (r : ObjectRecord) :
  objs !! i = Some r -> StorageClass r = c -> (0 < count_class c objs)%nat.
Proof.
  intros Hi Hc. unfold count_class.
  assert (r ∈ filter (fun o => StorageClass o = c) objs) as Hin.
  { apply list_elem_of_filter. split; [done|]. by eapply list_elem_of_lookup_2. }
  destruct (filter (fun o => StorageClass o = c) objs).
  - by apply elem_of_nil in Hin.
  - simpl; lia.
Qed.

Lemma histogram_of_counted (m : gmap string nat) (objs : list ObjectRecord) (c : string)
    (i : nat) (r : ObjectRecord) :
  histogram_of m objs -> objs !! i = Some r -> StorageClass r = c ->
  exists n, m !! c = Some (S n) /\ count_class c objs = S n.
Proof.
  intros H Hi Hc. pose proof (count_class_pos c objs i r Hi Hc) as Hpos.
  specialize (H c). destruct (count_class c objs) as [|n]; [lia|].
  by exists n.
Qed.

(** C2. When the HEAD request for the i-th listed entry fails, the
    aggregation still returns normally; the i-th record carries class
    STANDARD and is counted in the STANDARD entry of the histogram, and every
    listed entry, the later ones included, has its record. *)
Theorem failed_lookup_defaults_to_STANDARD_and_continues {World} (s3 : S3Client World)
    (BUCKET_NAME : string) (env : Env World) (resp : ListObjectsV2Output) (w : World)
    (i : nat) (obj : Listed.t) (e : string) :
  list_objects_v2 s3 BUCKET_NAME (world env) = (Ok resp, w) ->
  listing resp !! i = Some obj ->
  head_answers s3 BUCKET_NAME (listing resp) w !! i = Some (Raise e) ->
  exists objs total counts env',
    get_bucket_info s3 BUCKET_NAME env = (Ok (objs, total, counts), env')
    /\ objs !! i = Some (record_of obj "STANDARD")
    /\ (exists n, counts !! "STANDARD" = Some (S n)
                  /\ count_class "STANDARD" objs = S n)
    /\ length objs = length (listing resp)
    /\ (forall j obj', listing resp !! j = Some obj' ->
          exists sc, objs !! j = Some (record_of obj' sc)).
Proof.
  intros Hlist Hobj Hfail. eexists _, _, _, _.
  split; [by apply get_bucket_info_listed|].
  pose proof (records_of_lookup s3 BUCKET_NAME _ w i obj _ Hobj Hfail) as Hrec.
  simpl in Hrec.
  split; [exact Hrec|].
  split; [by eapply histogram_of_counted; [apply histogram_of_records|exact Hrec|]|].
  split; [apply records_of_length|].
  intros j obj' Hobj'.
  destruct (head_answers_lookup s3 BUCKET_NAME _ w j obj' Hobj') as [r Hr].
  exists (class_of_answer r). by apply records_of_lookup.
Qed.

Lemma failed_lookup_defaults_to_STANDARD_and_continues_witness :
  exists objs total counts env',
    get_bucket_info Fake.s3 default_BUCKET_NAME (Fake.env_of Fake.second_head_down)
      = (Ok (objs, total, counts), env')
    /\ objs !! 1%nat =
         Some {| Key := "b.bin"; Size := 2097152; LastModified := Fake.new_year;
                 StorageClass := "STANDARD" |}
    /\ (exists n, counts !! "STANDARD" = Some (S n)
                  /\ count_class "STANDARD" objs = S n)
    /\ length objs = 2%nat
    /\ (forall j obj',
          [ {| Listed.Key := "a.txt"; Listed.Size := 1048576;
               Listed.LastModified := Fake.new_year |};
            {| Listed.Key := "b.bin"; Listed.Size := 2097152;
               Listed.LastModified := Fake.new_year |} ] !! j = Some obj' ->
          exists sc, objs !! j = Some (record_of obj' sc)).
Proof.
  exact (failed_lookup_defaults_to_STANDARD_and_continues Fake.s3 default_BUCKET_NAME
           (Fake.env_of Fake.second_head_down) _ _ 1%nat _ "ClientError"
           eq_refl eq_refl eq_refl).
Defined.

(** C3. When the listing call raises, [get_bucket_info] raises nothing: it
    returns the empty list, 0 bytes and the empty histogram, having printed
    one warning line. *)
Theorem listing_failure_gives_empty_result {World} (s3 : S3Client World)
    (BUCKET_NAME : string) (env : Env World) (e : string) (w : World) :
  list_objects_v2 s3 BUCKET_NAME (world env) = (Raise e, w) ->
  get_bucket_info s3 BUCKET_NAME env =
  (Ok ([], 0, ∅),
   {| world := w;
      stdout := stdout env ++ ["[WARN] Error listing bucket contents: " ++ e];
      flashes := flashes env |}).
Proof. apply get_bucket_info_unlisted. Qed.

Lemma listing_failure_gives_empty_result_witness :
  get_bucket_info Fake.s3 default_BUCKET_NAME (Fake.env_of Fake.listing_down) =
  (Ok ([], 0, ∅),
   {| world := Fake.log "list_objects_v2" Fake.listing_down;
      stdout := ["[WARN] Error listing bucket contents: EndpointConnectionError"];
      flashes := [] |}).
Proof.
  exact (listing_failure_gives_empty_result Fake.s3 default_BUCKET_NAME
           (Fake.env_of Fake.listing_down) "EndpointConnectionError" _ eq_refl).
Defined.

(** C4. For every run of [get_bucket_info], the returned [total_bytes] is the
    exact integer sum of the [Size] fields of the returned records. *)
Theorem total_bytes_is_sum_of_sizes {World} (s3 : S3Client World)
    (BUCKET_NAME : string) (env : Env World) :
  exists objs total counts env',
    get_bucket_info s3 BUCKET_NAME env = (Ok (objs, total, counts), env')
    /\ total = sum_sizes objs.
Proof.
  destruct (get_bucket_info_fold s3 BUCKET_NAME env) as (rs & env' & Hrun & _).
  by eexists _, _, _, _.
Qed.

(** C5. When the listing call returns N entries, the returned histogram maps
    a label to n exactly when n > 0 records bear the label, so that no label
    without a record has an entry, and its values add up to N, the number of
    records. *)
Theorem sc_counts_is_histogram_of_records {World} (s3 : S3Client World)
    (BUCKET_NAME : string) (env : Env World) (resp : ListObjectsV2Output) (w : World) :
  list_objects_v2 s3 BUCKET_NAME (world env) = (Ok resp, w) ->
  exists objs total counts env',
    get_bucket_info s3 BUCKET_NAME env = (Ok (objs, total, counts), env')
    /\ (forall c n, counts !! c = Some n <->
                    n = count_class c objs /\ (0 < n)%nat)
    /\ sum_counts counts = length objs
    /\ length objs = length (listing resp).
Proof.
  intros Hlist. eexists _, _, _, _.
  split; [by apply get_bucket_info_listed|].
  split; [|split; [apply sum_counts_records|apply records_of_length]].
  intros c n.
  rewrite (histogram_of_records (records_of s3 BUCKET_NAME (listing resp) w) c).
  destruct (count_class c _) as [|k]; split.
  - intros [=].
  - intros [-> ?]; lia.
  - intros [= <-]. split; [done|lia].
  - by intros [-> _].
Qed.

Lemma sc_counts_is_histogram_of_records_witness :
  exists objs total counts env',
    get_bucket_info Fake.s3 default_BUCKET_NAME (Fake.env_of Fake.two_objects)
      = (Ok (objs, total, counts), env')
    /\ (forall c n, counts !! c = Some n <->
                    n = count_class c objs /\ (0 < n)%nat)
    /\ sum_counts counts = length objs
    /\ length objs = 2%nat.
Proof.
  exact (sc_counts_is_histogram_of_records Fake.s3 default_BUCKET_NAME
           (Fake.env_of Fake.two_objects) _ _ eq_refl).
Defined.

Lemma get_bucket_info_depends_on_classes {World World'} (s3 : S3Client World)
    (s3' : S3Client World') (BUCKET_NAME : string) (env : Env World) (env' : Env World')
    (resp : ListObjectsV2Output) (w : World) (w' : World') :
  list_objects_v2 s3 BUCKET_NAME (world env) = (Ok resp, w) ->
  list_objects_v2 s3' BUCKET_NAME (world env') = (Ok resp, w') ->
  map class_of_answer (head_answers s3' BUCKET_NAME (listing resp) w') =
  map class_of_answer (head_answers s3 BUCKET_NAME (listing resp) w) ->
  fst (get_bucket_info s3' BUCKET_NAME env') = fst (get_bucket_info s3 BUCKET_NAME env).
Proof.
  intros Hlist Hlist' Hsame.
  rewrite (get_bucket_info_listed s3 BUCKET_NAME env resp w Hlist).
  rewrite (get_bucket_info_listed s3' BUCKET_NAME env' resp w' Hlist').
  unfold records_of. rewrite Hsame. reflexivity.
Qed.

(** C9. When the HEAD request for the i-th listed entry succeeds with a
    response that has no storage-class field, the i-th record carries class
    STANDARD and is counted in the STANDARD entry of the histogram; and a
    gateway that returns the same listing and the same HEAD answers, except
    that the request for the i-th entry fails, leads to the very same
    result. *)
Theorem missing_class_field_is_STANDARD_like_a_failed_lookup {World} (s3 : S3Client World)
    (BUCKET_NAME : string) (env : Env World) (resp : ListObjectsV2Output) (w : World)
    (i : nat) (obj : Listed.t) :
  list_objects_v2 s3 BUCKET_NAME (world env) = (Ok resp, w) ->
  listing resp !! i = Some obj ->
  head_answers s3 BUCKET_NAME (listing resp) w !! i
    = Some (Ok {| head_StorageClass := None |}) ->
  exists objs total counts env1,
    get_bucket_info s3 BUCKET_NAME env = (Ok (objs, total, counts), env1)
    /\ objs !! i = Some (record_of obj "STANDARD")
    /\ (exists n, counts !! "STANDARD" = Some (S n)
                  /\ count_class "STANDARD" objs = S n)
    /\ (forall World' (s3' : S3Client World') (env' : Env World') (w' : World') (e : string),
          list_objects_v2 s3' BUCKET_NAME (world env') = (Ok resp, w') ->
          head_answers s3' BUCKET_NAME (listing resp) w'
            = <[i := Raise e]> (head_answers s3 BUCKET_NAME (listing resp) w) ->
          fst (get_bucket_info s3' BUCKET_NAME env') = Ok (objs, total, counts)).
Proof.
  intros Hlist Hobj Hnone. eexists _, _, _, _.
  split; [by apply get_bucket_info_listed|].
  pose proof (records_of_lookup s3 BUCKET_NAME _ w i obj _ Hobj Hnone) as Hrec.
  simpl in Hrec.
  split; [exact Hrec|].
  split; [by eapply histogram_of_counted; [apply histogram_of_records|exact Hrec|]|].
  intros World' s3' env' w' e Hlist' Hanswers.
  rewrite (get_bucket_info_depends_on_classes s3 s3' BUCKET_NAME env env' resp w w'
             Hlist Hlist').
  - by rewrite (get_bucket_info_listed s3 BUCKET_NAME env resp w Hlist).
  - rewrite Hanswers. change map with (@fmap list _). rewrite list_fmap_insert. simpl.
    apply list_insert_id. by rewrite list_lookup_fmap, Hnone.
Qed.

Lemma missing_class_field_is_STANDARD_like_a_failed_lookup_witness :
  exists objs total counts env1,
    get_bucket_info Fake.s3 default_BUCKET_NAME (Fake.env_of Fake.two_objects)
      = (Ok (objs, total, counts), env1)
    /\ objs !! 0%nat =
         Some {| Key := "a.txt"; Size := 1048576; LastModified := Fake.new_year;
                 StorageClass := "STANDARD" |}
    /\ (exists n, counts !! "STANDARD" = Some (S n)
                  /\ count_class "STANDARD" objs = S n)
    /\ (forall World' (s3' : S3Client World') (env' : Env World') (w' : World') (e : string),
          list_objects_v2 s3' "tierbucket" (world env')
            = (Ok {| Contents := Some
                       [ {| Listed.Key := "a.txt"; Listed.Size := 1048576;
                            Listed.LastModified := Fake.new_year |};
                         {| Listed.Key := "b.bin"; Listed.Size := 2097152;
                            Listed.LastModified := Fake.new_year |} ] |}, w') ->
          head_answers s3' "tierbucket"
            [ {| Listed.Key := "a.txt"; Listed.Size := 1048576;
                 Listed.LastModified := Fake.new_year |};
              {| Listed.Key := "b.bin"; Listed.Size := 2097152;
                 Listed.LastModified := Fake.new_year |} ] w'
            = [Raise e; Ok {| head_StorageClass := Some "GLACIER" |}] ->
          fst (get_bucket_info s3' "tierbucket" env') = Ok (objs, total, counts)).
Proof.
  exact (missing_class_field_is_STANDARD_like_a_failed_lookup Fake.s3 default_BUCKET_NAME
           (Fake.env_of Fake.two_objects) _ _ 0%nat _ eq_refl eq_refl eq_refl).
Defined.

(** ** Upload and preview *)

Section AppFacts.
Context {World : Type}.
Variable s3 : S3Client World.
Variables BUCKET_NAME RGW_ENDPOINT : string.
Variable BUCKET_QUOTA_MB : spec_float.
Variable utcnow : World -> PyResult datetime * World.
Variable os : Platform.
Variable nfkd : list N -> list N.
Variable decode_utf8_replace : list Byte.byte -> string.

Lemma index_POST_no_file (request : Request) (env : Env World) :
  files request !! "file" = None ->
  index_POST s3 BUCKET_NAME utcnow os nfkd request env =
  (Ok (Redirect (url request)),
   {| world := world env; stdout := stdout env;
      flashes := flashes env ++ [("No file selected.", "warning")] |}).
Proof. intros Hnone. unfold index_POST. rewrite Hnone. reflexivity. Qed.

Lemma index_POST_empty_name (request : Request) (env : Env World) (upfile : FileStorage) :
  files request !! "file" = Some upfile -> filename upfile = [] ->
  index_POST s3 BUCKET_NAME utcnow os nfkd request env =
  (Ok (Redirect (url request)),
   {| world := world env; stdout := stdout env;
      flashes := flashes env ++ [("No file selected.", "warning")] |}).
Proof.
  intros Hsome Hname. unfold index_POST. rewrite Hsome.
  rewrite bool_decide_eq_true_2 by done. reflexivity.
Qed.

Lemma preview_run (key : string) (env : Env World) :
  preview s3 BUCKET_NAME RGW_ENDPOINT decode_utf8_replace key env =
  let '(r, w) := get_object s3 BUCKET_NAME key (world env) in
  (match fetched r with
   | Raise e => Ok (StrStatus ("Error previewing file: " ++ e) 500)
   | Ok (content_type, data) =>
       if startswith content_type "text" || endswith_any (lower key) [".txt"; ".log"]
       then Ok (Str (decode_utf8_replace data))
       else if endswith_any (lower key) [".png"; ".jpg"; ".jpeg"; ".gif"]
       then Ok (Str (image_page BUCKET_NAME RGW_ENDPOINT key))
       else Ok (StrStatus "Preview not available for this file type." 400)
   end,
   with_world env w).
Proof.
  unfold preview, try_except, mbind, Py_bind, py_bind, call, lift, fetched, with_world,
    mret, Py_ret, py_ret.
  cbn [get_env set_env HasEnv_self].
  destruct (get_object s3 BUCKET_NAME key (world env)) as [[obj|e] w]; [|reflexivity].
  destruct (Body_read obj) as [data|e]; [|reflexivity].
  destruct (startswith (default "" (ContentType obj)) "text"
            || endswith_any (lower key) [".txt"; ".log"]); [reflexivity|].
  destruct (endswith_any (lower key) [".png"; ".jpg"; ".jpeg"; ".gif"]); reflexivity.
Qed.

End AppFacts.

(** C10. A POST request without a file part, or whose file part has an empty
    name, leaves the world behind the client as it was, so that no client
    operation, [put_object] included, has been called; nothing is printed, the
    warning "No file selected." is flashed and the browser is sent back to the
    request URL. *)
Theorem upload_without_file_writes_nothing {World} (s3 : S3Client World)
    (BUCKET_NAME RGW_ENDPOINT : string) (BUCKET_QUOTA_MB : spec_float)
    (utcnow : World -> PyResult datetime * World) (os : Platform)
    (nfkd : list N -> list N) (request : Request) (env : Env World) :
  method request = "POST" ->
  (files request !! "file" = None
   \/ exists upfile, files request !! "file" = Some upfile /\ filename upfile = []) ->
  index s3 BUCKET_NAME RGW_ENDPOINT BUCKET_QUOTA_MB utcnow os nfkd request env =
  (Ok (Redirect (url request)),
   {| world := world env; stdout := stdout env;
      flashes := flashes env ++ [("No file selected.", "warning")] |}).
Proof.
  intros Hpost Hfile. unfold index. rewrite Hpost. simpl.
  destruct Hfile as [Hnone|(upfile & Hsome & Hname)].
  - by apply index_POST_no_file.
  - by eapply index_POST_empty_name.
Qed.

Lemma upload_without_file_writes_nothing_witness :
  index Fake.s3 default_BUCKET_NAME default_RGW_ENDPOINT
    default_BUCKET_QUOTA_MB Fake.utcnow posix (fun l => l)
    Fake.post_with_empty_name (Fake.env_of Fake.two_objects) =
  (Ok (Redirect "http://localhost:5000/"),
   {| world := Fake.two_objects; stdout := [];
      flashes := [("No file selected.", "warning")] |}).
Proof.
  apply (upload_without_file_writes_nothing Fake.s3 default_BUCKET_NAME
           default_RGW_ENDPOINT default_BUCKET_QUOTA_MB
           Fake.utcnow posix (fun l => l) Fake.post_with_empty_name
           (Fake.env_of Fake.two_objects)).
  - reflexivity.
  - right. eexists. split; reflexivity.
Defined.

(** C8. When the object-body lookup of [preview] fails, in [get_object] or
    in reading the body, the view answers "Error previewing file: ..." with
    status 500; when it succeeds for an object that is neither text nor a
    known image, the view answers "Preview not available for this file type."
    with status 400.  No default content is served in either case, whereas a
    failed HEAD request in the aggregation silently yields class STANDARD. *)
Theorem preview_reports_failures {World} (s3 : S3Client World)
    (BUCKET_NAME RGW_ENDPOINT : string) (decode_utf8_replace : list Byte.byte -> string)
    (key : string) (env : Env World) (r : PyResult GetObjectOutput) (w : World) :
  get_object s3 BUCKET_NAME key (world env) = (r, w) ->
  (forall e, fetched r = Raise e ->
     preview s3 BUCKET_NAME RGW_ENDPOINT decode_utf8_replace key env =
     (Ok (StrStatus ("Error previewing file: " ++ e) 500), with_world env w))
  /\ (forall content_type data, fetched r = Ok (content_type, data) ->
        startswith content_type "text" = false ->
        endswith_any (lower key) [".txt"; ".log"] = false ->
        endswith_any (lower key) [".png"; ".jpg"; ".jpeg"; ".gif"] = false ->
        preview s3 BUCKET_NAME RGW_ENDPOINT decode_utf8_replace key env =
        (Ok (StrStatus "Preview not available for this file type." 400),
         with_world env w))
  /\ (forall loc e w', head_object s3 BUCKET_NAME key (world env) = (Raise e, w') ->
        storage_class_of s3 BUCKET_NAME key (loc, env) =
        (Ok "STANDARD", (loc, with_world env w'))).
Proof.
  intros Hget. rewrite preview_run, Hget. repeat split.
  - intros e ->. reflexivity.
  - intros content_type data -> -> -> ->. reflexivity.
  - intros loc e w' Hhead. rewrite storage_class_of_run, Hhead. reflexivity.
Qed.

Lemma preview_reports_failures_witness :
  preview Fake.s3 default_BUCKET_NAME default_RGW_ENDPOINT (fun _ => "")
    "backup.tar" (Fake.env_of Fake.archive_unreachable) =
  (Ok (StrStatus "Error previewing file: ClientError" 500),
   with_world (Fake.env_of Fake.archive_unreachable)
     (Fake.log "get_object" Fake.archive_unreachable))
  /\ preview Fake.s3 default_BUCKET_NAME default_RGW_ENDPOINT (fun _ => "")
       "backup.tar" (Fake.env_of Fake.with_archive) =
     (Ok (StrStatus "Preview not available for this file type." 400),
      with_world (Fake.env_of Fake.with_archive)
        (Fake.log "get_object" Fake.with_archive)).
Proof.
  split.
  - destruct (preview_reports_failures Fake.s3 default_BUCKET_NAME
                default_RGW_ENDPOINT (fun _ => "") "backup.tar"
                (Fake.env_of Fake.archive_unreachable) _ _ eq_refl) as (Herror & _ & _).
    exact (Herror "ClientError" eq_refl).
  - destruct (preview_reports_failures Fake.s3 default_BUCKET_NAME
                default_RGW_ENDPOINT (fun _ => "") "backup.tar"
                (Fake.env_of Fake.with_archive) _ _ eq_refl) as (_ & Hother & _).
    exact (Hother "application/x-tar" [Byte.x01; Byte.x02; Byte.x03]
             eq_refl eq_refl eq_refl eq_refl).
Defined.

(** ** The storage key *)

Lemma list_ascii_of_string_app (a b : string) :
  list_ascii_of_string (a ++ b) = (list_ascii_of_string a ++ list_ascii_of_string b)%list.
Proof. induction a as [|c a IH]; simpl; [done|]. by rewrite IH. Qed.

Lemma digit_char_is_digit (d : Z) : 0 <= d < 10 -> is_digit (digit_char d) = true.
Proof.
  intros Hd.
  assert (d = 0 \/ d = 1 \/ d = 2 \/ d = 3 \/ d = 4 \/ d = 5 \/ d = 6 \/ d = 7
          \/ d = 8 \/ d = 9) as Hcases by lia.
  repeat (destruct Hcases as [->|Hcases]; [reflexivity|]). by subst.
Qed.

Lemma decimal_digit_char (acc d : Z) :
  0 <= d < 10 -> 10 * acc + (Z.of_N (code (digit_char d)) - 48) = 10 * acc + d.
Proof.
  intros Hd.
  assert (d = 0 \/ d = 1 \/ d = 2 \/ d = 3 \/ d = 4 \/ d = 5 \/ d = 6 \/ d = 7
          \/ d = 8 \/ d = 9) as Hcases by lia.
  repeat (destruct Hcases as [->|Hcases]; [reflexivity|]). by subst.
Qed.

Lemma mod_10_digit (n : Z) : 0 <= n mod 10 < 10.
Proof. apply Z.mod_pos_bound. lia. Qed.

Lemma two_digits_are_digits (n : Z) : Forall (fun c => is_digit c = true) (two_digits n).
Proof. repeat constructor; apply digit_char_is_digit, mod_10_digit. Qed.

Lemma four_digits_are_digits (n : Z) : Forall (fun c => is_digit c = true) (four_digits n).
Proof. repeat constructor; apply digit_char_is_digit, mod_10_digit. Qed.

Lemma decimal_two_digits (n : Z) : 0 <= n < 100 -> decimal (two_digits n) = n.
Proof.
  intros Hn. unfold decimal, two_digits. simpl.
  rewrite !decimal_digit_char by apply mod_10_digit.
  rewrite (Z.mod_small (n / 10) 10) by (split; [apply Z.div_pos|apply Z.div_lt_upper_bound]; lia).
  pose proof (Z.div_mod n 10). lia.
Qed.

Lemma decimal_four_digits (n : Z) : 0 <= n < 10000 -> decimal (four_digits n) = n.
Proof.
  intros Hn. unfold decimal, four_digits. simpl.
  rewrite !decimal_digit_char by apply mod_10_digit.
  assert (n / 1000 mod 10 = n / 1000) as ->.
  { apply Z.mod_small. split; [apply Z.div_pos|apply Z.div_lt_upper_bound]; lia. }
  assert (n / 100 mod 10 = n / 100 - 10 * (n / 1000)) as ->.
  { replace 1000 with (100 * 10) by lia. rewrite <- Z.div_div by lia.
    pose proof (Z.div_mod (n / 100) 10). lia. }
  assert (n / 10 mod 10 = n / 10 - 10 * (n / 100)) as ->.
  { replace 100 with (10 * 10) by lia. rewrite <- Z.div_div by lia.
    pose proof (Z.div_mod (n / 10) 10). lia. }
  pose proof (Z.div_mod n 10). lia.
Qed.

Lemma is_digit_safe (c : ascii) : is_digit c = true -> safe_char c = true.
Proof. intros H. unfold safe_char. rewrite H. by rewrite !orb_true_r. Qed.

Lemma stamp_digits_are_digits (now : datetime) :
  Forall (fun c => is_digit c = true) (stamp_digits now).
Proof.
  unfold stamp_digits.
  repeat (apply Forall_app; split);
    first [apply four_digits_are_digits | apply two_digits_are_digits].
Qed.

Lemma strftime_key_prefix_chars (now : datetime) :
  list_ascii_of_string (strftime_key_prefix now) = (stamp_digits now ++ ["_"%char])%list.
Proof.
  unfold strftime_key_prefix, stamp_digits.
  rewrite list_ascii_of_string_of_list_ascii. by rewrite <- !app_assoc.
Qed.

Lemma lstrip_safe (drop : ascii -> bool) (s : list ascii) :
  Forall (fun c => safe_char c = true) s ->
  Forall (fun c => safe_char c = true) (lstrip drop s).
Proof.
  induction 1 as [|c s Hc Hs IH]; simpl; [constructor|].
  destruct (drop c); [exact IH|by constructor].
Qed.

Lemma strip_safe (drop : ascii -> bool) (s : list ascii) :
  Forall (fun c => safe_char c = true) s ->
  Forall (fun c => safe_char c = true) (strip drop s).
Proof.
  intros H. unfold strip.
  apply Forall_rev, lstrip_safe, Forall_rev, lstrip_safe, H.
Qed.

Lemma filter_safe (s : list ascii) :
  Forall (fun c => safe_char c = true) (filter safe_char s).
Proof.
  apply Forall_forall. intros c Hc.
  apply list_elem_of_filter in Hc as [Hc _]. by apply Is_true_true.
Qed.

(** Whatever the platform and the normaliser, the sanitised name is made of
    characters of [A-Za-z0-9_.-]. *)
Lemma secure_filename_safe (os : Platform) (nfkd : list N -> list N) (name : list N) :
  Forall (fun c => safe_char c = true)
         (list_ascii_of_string (secure_filename os nfkd name)).
Proof.
  unfold secure_filename. rewrite list_ascii_of_string_of_list_ascii.
  match goal with
  | |- Forall _ (if ?b then _ else _) => destruct b
  end.
  - constructor; [reflexivity|]. apply strip_safe, filter_safe.
  - apply strip_safe, filter_safe.
Qed.

Lemma safe_char_not_separator (s : list ascii) :
  Forall (fun c => safe_char c = true) s -> ~ In "/"%char s /\ ~ In "\"%char s.
Proof.
  intros H. rewrite Forall_forall in H.
  split; intros Hin; apply list_elem_of_In, H in Hin; discriminate Hin.
Qed.

Lemma index_POST_upload {World} (s3 : S3Client World) (BUCKET_NAME : string)
    (utcnow : World -> PyResult datetime * World) (os : Platform) (nfkd : list N -> list N)
    (request : Request) (env : Env World) (upfile : FileStorage) (now : datetime)
    (w1 : World) :
  files request !! "file" = Some upfile ->
  filename upfile <> [] ->
  utcnow (world env) = (Ok now, w1) ->
  index_POST s3 BUCKET_NAME utcnow os nfkd request env =
  (Ok (Redirect "/"),
   match put_object s3 BUCKET_NAME
           (strftime_key_prefix now ++ secure_filename os nfkd (filename upfile))
           (stream_read upfile) "public-read" w1 with
   | (Ok _, w2) =>
       {| world := w2; stdout := stdout env;
          flashes := flashes env ++
            [("File '" ++ secure_filename os nfkd (filename upfile)
                ++ "' uploaded successfully!", "success")] |}
   | (Raise e, w2) =>
       {| world := w2; stdout := stdout env;
          flashes := flashes env ++ [("Upload failed: " ++ e, "danger")] |}
   end).
Proof.
  intros Hfile Hname Hnow. unfold index_POST. rewrite Hfile.
  rewrite bool_decide_eq_false_2 by done.
  unfold try_except, mbind, Py_bind, py_bind, call, flash, mret, Py_ret, py_ret.
  cbn [get_env set_env HasEnv_self world stdout flashes]. rewrite Hnow.
  cbn [world stdout flashes].
  destruct (put_object s3 BUCKET_NAME _ (stream_read upfile) "public-read" w1)
    as [[[]|e] w2]; reflexivity.
Qed.

(** C7. A POST request that carries a named file part calls [put_object]
    exactly once, with the key [stamp ++ "_" ++ name]: [stamp] is the fourteen
    decimal digits YYYYMMDDHHMMSS of the UTC time read from the clock and
    [name] is the sanitised display name.  Every character of the key is in
    [A-Za-z0-9_.-]: the key holds no slash and no backslash, and it is
    neither "." nor "..", so it is a single name inside the bucket. *)
Theorem upload_key_is_timestamp_and_sanitised_name {World} (s3 : S3Client World)
    (BUCKET_NAME RGW_ENDPOINT : string) (BUCKET_QUOTA_MB : spec_float)
    (utcnow : World -> PyResult datetime * World) (os : Platform)
    (nfkd : list N -> list N) (request : Request) (env : Env World)
    (upfile : FileStorage) (now : datetime) (w1 : World) :
  method request = "POST" ->
  files request !! "file" = Some upfile ->
  filename upfile <> [] ->
  utcnow (world env) = (Ok now, w1) ->
  valid_datetime now ->
  let name := secure_filename os nfkd (filename upfile) in
  let s3_key := strftime_key_prefix now ++ name in
  index s3 BUCKET_NAME RGW_ENDPOINT BUCKET_QUOTA_MB utcnow os nfkd request env =
    (Ok (Redirect "/"),
     match put_object s3 BUCKET_NAME s3_key (stream_read upfile) "public-read" w1 with
     | (Ok _, w2) =>
         {| world := w2; stdout := stdout env;
            flashes := flashes env ++
              [("File '" ++ name ++ "' uploaded successfully!", "success")] |}
     | (Raise e, w2) =>
         {| world := w2; stdout := stdout env;
            flashes := flashes env ++ [("Upload failed: " ++ e, "danger")] |}
     end)
  /\ list_ascii_of_string s3_key
       = (stamp_digits now ++ "_"%char :: list_ascii_of_string name)%list
  /\ length (stamp_digits now) = 14%nat
  /\ Forall (fun c => is_digit c = true) (stamp_digits now)
  /\ decimal (take 4 (stamp_digits now)) = year now
  /\ decimal (take 2 (drop 4 (stamp_digits now))) = month now
  /\ decimal (take 2 (drop 6 (stamp_digits now))) = day now
  /\ decimal (take 2 (drop 8 (stamp_digits now))) = hour now
  /\ decimal (take 2 (drop 10 (stamp_digits now))) = minute now
  /\ decimal (take 2 (drop 12 (stamp_digits now))) = second now
  /\ Forall (fun c => safe_char c = true) (list_ascii_of_string s3_key)
  /\ ~ In "/"%char (list_ascii_of_string s3_key)
  /\ ~ In "\"%char (list_ascii_of_string s3_key)
  /\ s3_key <> "." /\ s3_key <> "..".
Proof.
  intros Hpost Hfile Hname Hnow Hvalid name s3_key.
  destruct Hvalid as (Hy & Hmo & Hd & Hh & Hmi & Hs).
  assert (list_ascii_of_string s3_key
          = (stamp_digits now ++ "_"%char :: list_ascii_of_string name)%list) as Hkey.
  { unfold s3_key. rewrite list_ascii_of_string_app, strftime_key_prefix_chars.
    by rewrite <- app_assoc. }
  assert (Forall (fun c => safe_char c = true) (list_ascii_of_string s3_key)) as Hsafe.
  { rewrite Hkey. apply Forall_app. split.
    - eapply Forall_impl; [apply stamp_digits_are_digits|]. apply is_digit_safe.
    - constructor; [reflexivity|]. apply secure_filename_safe. }
  split.
  { unfold index. rewrite Hpost. simpl. by apply index_POST_upload. }
  split; [exact Hkey|].
  split; [reflexivity|].
  split; [apply stamp_digits_are_digits|].
  split; [apply decimal_four_digits; lia|].
  do 5 (split; [apply decimal_two_digits; lia|]).
  split; [exact Hsafe|].
  split; [apply safe_char_not_separator, Hsafe|].
  split; [apply safe_char_not_separator, Hsafe|].
  split; intros Heq; apply (f_equal list_ascii_of_string) in Heq;
    rewrite Hkey in Heq; apply (f_equal length) in Heq;
    rewrite length_app in Heq; simpl in Heq; lia.
Qed.

Lemma upload_key_is_timestamp_and_sanitised_name_witness :
  index Fake.s3 default_BUCKET_NAME default_RGW_ENDPOINT
    default_BUCKET_QUOTA_MB Fake.utcnow posix (fun l => l)
    Fake.post_traversal (Fake.env_of Fake.two_objects) =
  (Ok (Redirect "/"),
   {| world := snd (Fake.fake_put_object "tierbucket" "20250102030405_etc_passwd"
                      [Byte.x41; Byte.x42; Byte.x43] "public-read" Fake.two_objects);
      stdout := [];
      flashes := [("File 'etc_passwd' uploaded successfully!", "success")] |}).
Proof.
  refine (proj1 (upload_key_is_timestamp_and_sanitised_name Fake.s3 default_BUCKET_NAME
           default_RGW_ENDPOINT default_BUCKET_QUOTA_MB
           Fake.utcnow posix (fun l => l) Fake.post_traversal
           (Fake.env_of Fake.two_objects) _ Fake.new_year _ eq_refl eq_refl _ eq_refl _)).
  - discriminate.
  - unfold valid_datetime; simpl; lia.
Defined.

(** ** Rounding to binary64 *)

Local Open Scope Z_scope.

Lemma digits2_pos_bounds (p : positive) :
  2 ^ (Zpos (digits2_pos p) - 1) <= Zpos p < 2 ^ Zpos (digits2_pos p).
Proof.
  induction p as [p IH|p IH|]; cbn [digits2_pos].
  - rewrite Pos2Z.inj_succ.
    replace (Z.succ (Zpos (digits2_pos p)) - 1) with (Z.succ (Zpos (digits2_pos p) - 1)) by lia.
    rewrite !Z.pow_succ_r by lia. lia.
  - rewrite Pos2Z.inj_succ.
    replace (Z.succ (Zpos (digits2_pos p)) - 1) with (Z.succ (Zpos (digits2_pos p) - 1)) by lia.
    rewrite !Z.pow_succ_r by lia. lia.
  - simpl. lia.
Qed.

Lemma Zdigits2_nonneg (x : Z) : 0 <= Zdigits2 x.
Proof. destruct x; simpl; lia. Qed.

Lemma Zdigits2_above (x : Z) : 0 <= x -> x < 2 ^ Zdigits2 x.
Proof.
  intros Hx. destruct x as [|p|p]; simpl; [lia| |lia].
  apply digits2_pos_bounds.
Qed.

Lemma Zdigits2_le (x k : Z) : 0 <= x -> 0 <= k -> x < 2 ^ k -> Zdigits2 x <= k.
Proof.
  intros Hx Hk Hlt. destruct x as [|p|p]; simpl; [lia| |lia].
  pose proof (digits2_pos_bounds p) as [Hlow _].
  assert (2 ^ (Zpos (digits2_pos p) - 1) < 2 ^ k) as Hpow by lia.
  apply Z.pow_lt_mono_r_iff in Hpow; lia.
Qed.

Lemma shr_1_m (r : shr_record) : 0 <= shr_m r -> shr_m (shr_1 r) = shr_m r / 2.
Proof.
  destruct r as [m rb sb]. cbn [shr_m]. intros Hm.
  destruct m as [|[p|p|]|p]; cbn [shr_1 shr_m]; try lia.
  - reflexivity.
  - apply Z.div_unique with (r := 1); lia.
  - apply Z.div_unique with (r := 0); lia.
  - reflexivity.
Qed.

Lemma iter_shr_1_m (p : positive) : forall r : shr_record,
  0 <= shr_m r -> shr_m (SpecFloat.iter_pos shr_1 p r) = shr_m r / 2 ^ Zpos p.
Proof.
  induction p as [p IH|p IH|]; intros r Hr; cbn [SpecFloat.iter_pos].
  - assert (0 <= shr_m (shr_1 r)) as H1.
    { rewrite shr_1_m by done. apply Z.div_pos; lia. }
    assert (0 <= shr_m (SpecFloat.iter_pos shr_1 p (shr_1 r))) as H2.
    { rewrite IH by done. apply Z.div_pos; lia. }
    rewrite IH, IH, shr_1_m by done.
    rewrite !Z.div_div by lia. f_equal.
    rewrite <- Z.pow_add_r, <- Z.pow_succ_r by lia. f_equal. lia.
  - assert (0 <= shr_m (SpecFloat.iter_pos shr_1 p r)) as H2.
    { rewrite IH by done. apply Z.div_pos; lia. }
    rewrite IH, IH by done.
    rewrite !Z.div_div by lia. f_equal.
    rewrite <- Z.pow_add_r by lia. f_equal. lia.
  - rewrite shr_1_m by done. reflexivity.
Qed.

Lemma shr_record_of_loc_m (m : Z) (l : location) : shr_m (shr_record_of_loc m l) = m.
Proof. destruct l as [|[]]; reflexivity. Qed.

(** [shr_fexp] divides the mantissa by a power of two and raises the
    exponent to the one the format prescribes, never lowering it. *)
Lemma shr_fexp_spec (m e : Z) (l : location) :
  0 <= m ->
  exists n, 0 <= n
    /\ shr_m (fst (shr_fexp prec emax m e l)) = m / 2 ^ n
    /\ snd (shr_fexp prec emax m e l) = e + n
    /\ e + n = Z.max e (fexp prec emax (Zdigits2 m + e)).
Proof.
  intros Hm. unfold shr_fexp, shr.
  destruct (fexp prec emax (Zdigits2 m + e) - e) as [|p|p] eqn:Hn.
  - exists 0. simpl. rewrite shr_record_of_loc_m, Z.div_1_r. lia.
  - exists (Zpos p). simpl.
    rewrite iter_shr_1_m by (rewrite shr_record_of_loc_m; lia).
    rewrite shr_record_of_loc_m. lia.
  - exists 0. simpl. rewrite shr_record_of_loc_m, Z.div_1_r. lia.
Qed.

Lemma round_nearest_even_bounds (m : Z) (l : location) :
  m <= round_nearest_even m l <= m + 1.
Proof. unfold round_nearest_even. destruct l as [|[]]; try destruct (Z.even m); lia. Qed.

Lemma div_pow2_below (m d n : Z) :
  0 <= m -> 0 <= n -> 0 <= d -> m < 2 ^ d -> m / 2 ^ n < 2 ^ Z.max (d - n) 0.
Proof.
  intros Hm Hn Hd Hlt.
  destruct (Z.le_gt_cases n d) as [Hnd|Hnd].
  - rewrite Z.max_l by lia. apply Z.div_lt_upper_bound; [lia|].
    rewrite <- Z.pow_add_r by lia. by replace (n + (d - n)) with d by lia.
  - rewrite Z.max_r by lia. simpl. apply Z.div_lt_upper_bound; [lia|].
    assert (2 ^ d <= 2 ^ n) by (apply Z.pow_le_mono_r; lia). lia.
Qed.

(** Rounding keeps the sign and yields no NaN. *)
Lemma binary_round_aux_sign (s : bool) (m e : Z) (l : location) :
  0 <= m -> has_sign s (binary_round_aux prec emax s m e l).
Proof.
  intros Hm. unfold binary_round_aux.
  destruct (shr_fexp_spec m e l Hm) as (n1 & Hn1 & Hm1 & He1 & _).
  destruct (shr_fexp prec emax m e l) as [r1 e1]. simpl in Hm1, He1.
  pose proof (round_nearest_even_bounds (shr_m r1) (loc_of_shr_record r1)) as Hr.
  set (mr := round_nearest_even (shr_m r1) (loc_of_shr_record r1)) in *.
  assert (0 <= mr) as Hmr.
  { assert (0 <= m / 2 ^ n1) by (apply Z.div_pos; lia). lia. }
  destruct (shr_fexp_spec mr e1 loc_Exact Hmr) as (n2 & Hn2 & Hm2 & He2 & _).
  destruct (shr_fexp prec emax mr e1 loc_Exact) as [r2 e2]. simpl in Hm2, He2.
  assert (0 <= shr_m r2) as H2 by (rewrite Hm2; apply Z.div_pos; lia).
  destruct (shr_m r2) as [|p|p]; simpl; [done| |lia].
  by destruct (e2 <=? emax - prec).
Qed.

(** Rounding a value below [2 ^ k], for [k] below the largest exponent,
    yields a zero or a finite float below [2 ^ (k + 1)]. *)
Lemma binary_round_aux_finite (k : Z) (s : bool) (m e : Z) (l : location) :
  0 <= m -> 0 <= k <= emax - 1 -> e <= 0 -> Zdigits2 m + e <= k ->
  finite_below (k + 1) (binary_round_aux prec emax s m e l).
Proof.
  intros Hm Hk He Hd. unfold binary_round_aux.
  destruct (shr_fexp_spec m e l Hm) as (n1 & Hn1 & Hm1 & He1 & Hmax1).
  destruct (shr_fexp prec emax m e l) as [r1 e1]. simpl in Hm1, He1.
  pose proof (round_nearest_even_bounds (shr_m r1) (loc_of_shr_record r1)) as Hr.
  set (mr := round_nearest_even (shr_m r1) (loc_of_shr_record r1)) in *.
  pose proof (Zdigits2_nonneg m) as Hd0.
  pose proof (Zdigits2_above m Hm) as Habove.
  pose proof (div_pow2_below m (Zdigits2 m) n1 Hm Hn1 Hd0 Habove) as Hm1'.
  assert (0 <= m / 2 ^ n1) as Hq1 by (apply Z.div_pos; lia).
  assert (0 <= mr) as Hmr by lia.
  unfold fexp, SpecFloat.emin, prec, emax in Hmax1.
  assert (Zdigits2 mr + e1 <= k + 1) as Hdr.
  { assert (Zdigits2 mr <= Z.max (Zdigits2 m - n1) 0 + 1); [|lia].
    apply Zdigits2_le; [lia|lia|].
    rewrite Z.pow_add_r by lia. change (2 ^ 1) with 2.
    assert (0 < 2 ^ Z.max (Zdigits2 m - n1) 0) by (apply Z.pow_pos_nonneg; lia).
    lia. }
  destruct (shr_fexp_spec mr e1 loc_Exact Hmr) as (n2 & Hn2 & Hm2 & He2 & Hmax2).
  destruct (shr_fexp prec emax mr e1 loc_Exact) as [r2 e2]. simpl in Hm2, He2.
  unfold fexp, SpecFloat.emin, prec, emax in Hmax2. unfold emax in Hk.
  destruct (shr_m r2) as [|p|p] eqn:Hp; simpl; [done| |].
  - assert (e2 <= emax - prec) as Hfin by (unfold emax, prec; lia).
    apply Z.leb_le in Hfin as Hfin'. rewrite Hfin'. simpl. split; [|done].
    pose proof (Zdigits2_nonneg mr) as Hdr0.
    pose proof (Zdigits2_above mr Hmr) as Habove2.
    pose proof (div_pow2_below mr (Zdigits2 mr) n2 Hmr Hn2 Hdr0 Habove2) as Hm2'.
    rewrite <- Hm2 in Hm2'.
    destruct (Z.le_gt_cases n2 (Zdigits2 mr)) as [Hle|Hgt].
    + rewrite Z.max_l in Hm2' by lia.
      assert (Zdigits2 (Zpos p) <= Zdigits2 mr - n2) by (apply Zdigits2_le; lia).
      simpl in *. lia.
    + rewrite Z.max_r in Hm2' by lia. simpl in Hm2'. lia.
  - assert (0 <= mr / 2 ^ n2) by (apply Z.div_pos; lia). lia.
Qed.

(** What rounding returns, when finite, fits the format. *)
Lemma binary_round_aux_shape (s : bool) (m e : Z) (l : location) :
  0 <= m ->
  match binary_round_aux prec emax s m e l with
  | S754_finite _ m' e' => Zdigits2 (Zpos m') <= prec /\ e' <= emax - prec
  | _ => True
  end.
Proof.
  intros Hm. unfold binary_round_aux.
  destruct (shr_fexp_spec m e l Hm) as (n1 & Hn1 & Hm1 & He1 & _).
  destruct (shr_fexp prec emax m e l) as [r1 e1]. simpl in Hm1, He1.
  pose proof (round_nearest_even_bounds (shr_m r1) (loc_of_shr_record r1)) as Hr.
  set (mr := round_nearest_even (shr_m r1) (loc_of_shr_record r1)) in *.
  assert (0 <= mr) as Hmr.
  { assert (0 <= m / 2 ^ n1) by (apply Z.div_pos; lia). lia. }
  destruct (shr_fexp_spec mr e1 loc_Exact Hmr) as (n2 & Hn2 & Hm2 & He2 & Hmax2).
  destruct (shr_fexp prec emax mr e1 loc_Exact) as [r2 e2]. simpl in Hm2, He2.
  destruct (shr_m r2) as [|p|p] eqn:Hp; [done| |done].
  destruct (Z.leb_spec e2 (emax - prec)) as [Hle|Hgt]; [|done].
  split; [|done].
  pose proof (Zdigits2_nonneg mr) as Hdr0.
  pose proof (Zdigits2_above mr Hmr) as Habove.
  pose proof (div_pow2_below mr (Zdigits2 mr) n2 Hmr Hn2 Hdr0 Habove) as Hbelow.
  rewrite <- Hm2 in Hbelow.
  unfold fexp, SpecFloat.emin, prec, emax in *.
  destruct (Z.le_gt_cases n2 (Zdigits2 mr)) as [Hcase|Hcase].
  - rewrite Z.max_l in Hbelow by lia.
    assert (Zdigits2 (Zpos p) <= Zdigits2 mr - n2) by (apply Zdigits2_le; lia).
    lia.
  - rewrite Z.max_r in Hbelow by lia. simpl in Hbelow. lia.
Qed.

(** ** Values that need no rounding *)

Lemma Zdigits2_unique (x k : Z) : 2 ^ (k - 1) <= x < 2 ^ k -> 0 < k -> Zdigits2 x = k.
Proof.
  intros [Hlow Hhigh] Hk.
  assert (0 < x) as Hx by (assert (0 < 2 ^ (k - 1)) by (apply Z.pow_pos_nonneg; lia); lia).
  destruct x as [|p|p]; try lia. simpl.
  pose proof (digits2_pos_bounds p) as [Hlow' Hhigh'].
  assert (2 ^ (k - 1) < 2 ^ Zpos (digits2_pos p)) as H1 by lia.
  assert (2 ^ (Zpos (digits2_pos p) - 1) < 2 ^ k) as H2 by lia.
  apply Z.pow_lt_mono_r_iff in H1; [|lia|lia].
  apply Z.pow_lt_mono_r_iff in H2; lia.
Qed.

Lemma Zdigits2_mul_pow2 (x j : Z) : 0 < x -> 0 <= j -> Zdigits2 (x * 2 ^ j) = Zdigits2 x + j.
Proof.
  intros Hx Hj. destruct x as [|p|p]; try lia.
  pose proof (digits2_pos_bounds p) as [Hlow Hhigh].
  assert (0 < 2 ^ j) by (apply Z.pow_pos_nonneg; lia).
  apply Zdigits2_unique; [|simpl; lia]. cbn [Zdigits2].
  replace (Zpos (digits2_pos p) + j - 1) with (Zpos (digits2_pos p) - 1 + j) by lia.
  rewrite !Z.pow_add_r by lia. nia.
Qed.

Lemma Zdigits2_mono (x y : Z) : 0 <= x <= y -> Zdigits2 x <= Zdigits2 y.
Proof.
  intros [Hx Hxy]. apply Zdigits2_le; [done|apply Zdigits2_nonneg|].
  pose proof (Zdigits2_above y ltac:(lia)). lia.
Qed.

Lemma shr_1_even (a : Z) :
  0 <= a ->
  shr_1 {| shr_m := 2 * a; shr_r := false; shr_s := false |}
  = {| shr_m := a; shr_r := false; shr_s := false |}.
Proof. intros Ha. destruct a as [|p|p]; try lia; reflexivity. Qed.

(** Shifting out zeros leaves no trace in the rounding bits. *)
Lemma iter_shr_1_exact (p : positive) : forall a : Z,
  0 <= a ->
  SpecFloat.iter_pos shr_1 p {| shr_m := a * 2 ^ Zpos p; shr_r := false; shr_s := false |}
  = {| shr_m := a; shr_r := false; shr_s := false |}.
Proof.
  induction p as [p IH|p IH|]; intros a Ha; cbn [SpecFloat.iter_pos].
  - replace (a * 2 ^ Zpos p~1) with (2 * (a * 2 ^ Zpos p * 2 ^ Zpos p)).
    + rewrite shr_1_even by (assert (0 < 2 ^ Zpos p) by (apply Z.pow_pos_nonneg; lia); nia).
      rewrite IH by (assert (0 < 2 ^ Zpos p) by (apply Z.pow_pos_nonneg; lia); nia).
      by apply IH.
    + rewrite <- Z.mul_assoc, <- Z.pow_add_r by lia.
      replace (Zpos p~1) with (Z.succ (Zpos p + Zpos p)) by lia.
      rewrite Z.pow_succ_r by lia. lia.
  - replace (a * 2 ^ Zpos p~0) with (a * 2 ^ Zpos p * 2 ^ Zpos p).
    + rewrite IH by (assert (0 < 2 ^ Zpos p) by (apply Z.pow_pos_nonneg; lia); nia).
      by apply IH.
    + rewrite <- Z.mul_assoc, <- Z.pow_add_r by lia. f_equal. f_equal. lia.
  - replace (a * 2 ^ 1) with (2 * a) by lia. by apply shr_1_even.
Qed.

Lemma shr_fexp_exact (x j e : Z) :
  0 < x -> 0 <= j ->
  Zdigits2 x <= prec -> - 1074 <= e + j ->
  e <= fexp prec emax (Zdigits2 x + (e + j)) ->
  exists i, 0 <= i <= j
    /\ shr_fexp prec emax (x * 2 ^ j) e loc_Exact
       = ({| shr_m := x * 2 ^ i; shr_r := false; shr_s := false |}, e + j - i)
    /\ fexp prec emax (Zdigits2 x + (e + j)) = e + j - i.
Proof.
  intros Hx Hj Hd Hmin He.
  unfold shr_fexp. rewrite Zdigits2_mul_pow2 by lia.
  replace (Zdigits2 x + j + e) with (Zdigits2 x + (e + j)) by lia.
  set (target := fexp prec emax (Zdigits2 x + (e + j))) in *.
  assert (target <= e + j) as Htarget.
  { unfold target, fexp, SpecFloat.emin, prec, emax in *. lia. }
  exists (e + j - target). split; [lia|]. split; [|lia].
  unfold shr. cbn [shr_record_of_loc].
  destruct (target - e) as [|n|n] eqn:Hn; try lia.
  - replace (e + j - target) with j by lia. repeat f_equal; lia.
  - replace (x * 2 ^ j) with (x * 2 ^ (e + j - target) * 2 ^ Zpos n).
    + rewrite iter_shr_1_exact
        by (assert (0 < 2 ^ (e + j - target)) by (apply Z.pow_pos_nonneg; lia); nia).
      f_equal. lia.
    + rewrite <- Z.mul_assoc, <- Z.pow_add_r by lia. f_equal. f_equal. lia.
Qed.

(** A value [x * 2 ^ (e + j)] with [x] of at most 53 digits, given with the
    exponent [e], is representable as soon as [e + j] is an exponent of the
    format: rounding returns a finite float. *)
Lemma binary_round_aux_exact (s : bool) (x j e : Z) :
  0 < x -> 0 <= j ->
  Zdigits2 x <= prec -> - 1074 <= e + j <= emax - prec ->
  e <= fexp prec emax (Zdigits2 x + (e + j)) ->
  has_sign s (binary_round_aux prec emax s (x * 2 ^ j) e loc_Exact)
  /\ finite_float (binary_round_aux prec emax s (x * 2 ^ j) e loc_Exact).
Proof.
  intros Hx Hj Hd [Hmin Hmax] He.
  assert (0 <= x * 2 ^ j) as Hnonneg.
  { assert (0 < 2 ^ j) by (apply Z.pow_pos_nonneg; lia). nia. }
  split; [by apply binary_round_aux_sign|].
  pose proof (binary_round_aux_shape s (x * 2 ^ j) e loc_Exact Hnonneg) as Hshape.
  destruct (shr_fexp_exact x j e Hx Hj Hd Hmin He) as (i & Hi & Hshr & Hfexp).
  unfold binary_round_aux in *. rewrite Hshr in *.
  cbn [shr_m loc_of_shr_record round_nearest_even] in *.
  assert (shr_fexp prec emax (x * 2 ^ i) (e + j - i) loc_Exact
          = ({| shr_m := x * 2 ^ i; shr_r := false; shr_s := false |}, e + j - i)) as Hshr2.
  { destruct (shr_fexp_exact x i (e + j - i) Hx ltac:(lia) Hd ltac:(lia)) as (i' & Hi' & Hshr' & Hfexp').
    - replace (e + j - i + i) with (e + j) by lia. lia.
    - replace (e + j - i + i) with (e + j) in * by lia.
      assert (i' = i) as -> by lia. rewrite Hshr'. repeat f_equal; lia. }
  rewrite Hshr2 in *. cbn [shr_m] in *.
  assert (0 < x * 2 ^ i) as Hpos.
  { assert (0 < 2 ^ i) by (apply Z.pow_pos_nonneg; lia). nia. }
  destruct (x * 2 ^ i) as [|m|m]; try lia.
  assert ((e + j - i <=? emax - prec) = true) as Hleb by (apply Z.leb_le; lia).
  rewrite Hleb in *. exact Hshape.
Qed.

(** ** The division at the heart of [/] and [round] *)

Lemma SFdiv_core_binary_nonneg (m1 e1 m2 e2 : Z) :
  0 <= m1 -> 0 < m2 ->
  0 <= fst (fst (SFdiv_core_binary prec emax m1 e1 m2 e2)).
Proof.
  intros H1 H2. unfold SFdiv_core_binary.
  set (e' := Z.min _ _). set (s := e1 - e2 - e').
  set (m' := match s with Z0 => m1 | Zpos _ => Z.shiftl m1 s | Zneg _ => 0 end).
  assert (0 <= m') as Hm'.
  { unfold m'. destruct s; [lia| |lia]. apply Z.shiftl_nonneg. lia. }
  pose proof (Z_div_mod m' m2 ltac:(lia)) as Hdiv.
  destruct (Z.div_eucl m' m2) as [q r]. simpl. nia.
Qed.

(** Integer over integer: the quotient has as many digits as its value. *)
Lemma SFdiv_core_binary_below (m1 m2 k : Z) :
  0 <= m1 -> 0 < m2 -> 0 <= k -> m1 < m2 * 2 ^ k ->
  let '(q, e, _) := SFdiv_core_binary prec emax m1 0 m2 0 in
  0 <= q /\ e <= 0 /\ Zdigits2 q + e <= k.
Proof.
  intros H1 H2 Hk Hlt.
  pose proof (SFdiv_core_binary_nonneg m1 0 m2 0 H1 H2) as Hq.
  unfold SFdiv_core_binary in *.
  set (e' := Z.min _ (0 - 0)) in *.
  assert (e' <= 0) as He' by (unfold e'; lia).
  set (s := 0 - 0 - e') in *.
  set (m' := match s with Z0 => m1 | Zpos _ => Z.shiftl m1 s | Zneg _ => 0 end) in *.
  assert (m' = m1 * 2 ^ s) as Hm'.
  { unfold m'. destruct s eqn:Hs; [lia| |lia]. apply Z.shiftl_mul_pow2. lia. }
  pose proof (Z_div_mod m' m2 ltac:(lia)) as Hdiv.
  destruct (Z.div_eucl m' m2) as [q r]. simpl in Hq.
  split; [done|]. split; [done|].
  assert (Zdigits2 q <= k + s); [|lia].
  apply Zdigits2_le; [done|lia|].
  rewrite Z.pow_add_r by lia.
  assert (0 < 2 ^ s) by (apply Z.pow_pos_nonneg; lia).
  nia.
Qed.

(** A multiple of 100 over 100: the division is exact. *)
Lemma SFdiv_core_binary_exact_100 (x : Z) :
  0 < x ->
  exists e, e <= 0
    /\ e <= fexp prec emax (Zdigits2 x)
    /\ SFdiv_core_binary prec emax (x * 100) 0 100 0 = (x * 2 ^ (- e), e, loc_Exact).
Proof.
  intros Hx. unfold SFdiv_core_binary.
  change (Zdigits2 100) with 7.
  set (e' := Z.min _ (0 - 0)).
  assert (e' <= 0) as He' by (unfold e'; lia).
  assert (e' <= fexp prec emax (Zdigits2 x)) as Hfexp.
  { assert (Zdigits2 (x * 100) <= Zdigits2 x + 7) as Hd.
    { apply Zdigits2_le; [lia|pose proof (Zdigits2_nonneg x); lia|].
      pose proof (Zdigits2_above x ltac:(lia)).
      rewrite Z.pow_add_r by (pose proof (Zdigits2_nonneg x); lia).
      change (2 ^ 7) with 128. lia. }
    unfold e', fexp, SpecFloat.emin, prec, emax. lia. }
  exists e'. split; [done|]. split; [done|].
  set (s := 0 - 0 - e').
  set (m' := match s with Z0 => x * 100 | Zpos _ => Z.shiftl (x * 100) s | Zneg _ => 0 end).
  assert (m' = 100 * (x * 2 ^ (- e'))) as Hm'.
  { unfold m'. replace (- e') with s by (unfold s; lia).
    destruct s eqn:Hs; [lia| |lia]. rewrite Z.shiftl_mul_pow2 by lia. lia. }
  pose proof (Z_div_mod m' 100 ltac:(lia)) as Hdiv.
  destruct (Z.div_eucl m' 100) as [q r].
  assert (q = x * 2 ^ (- e') /\ r = 0) as [-> ->] by lia.
  reflexivity.
Qed.

Lemma finite_or_overflow_finite (msg : string) (x : spec_float) :
  finite_float x -> finite_or_overflow msg x = Ok x.
Proof. destruct x; simpl; intros H; done. Qed.

Lemma finite_or_overflow_Ok (msg : string) (x y : spec_float) :
  finite_or_overflow msg x = Ok y -> y = x /\ forall s, x <> S754_infinity s.
Proof. destruct x; simpl; intros [= <-]; split; done. Qed.

(** A rounded value that is not an infinity is a finite float. *)
Lemma binary_round_aux_finite_float (s : bool) (m e : Z) (l : location) :
  0 <= m ->
  (forall s', binary_round_aux prec emax s m e l <> S754_infinity s') ->
  finite_float (binary_round_aux prec emax s m e l).
Proof.
  intros Hm Hinf.
  pose proof (binary_round_aux_sign s m e l Hm) as Hsign.
  pose proof (binary_round_aux_shape s m e l Hm) as Hshape.
  destruct (binary_round_aux prec emax s m e l) as [s'|s'| |s' m' e']; try done.
  by destruct (Hinf s').
Qed.

Lemma finite_below_not_infinity (k : Z) (x : spec_float) :
  finite_below k x -> forall s, x <> S754_infinity s.
Proof. by destruct x. Qed.

(** [total / (1024 * 1024)], when it does not overflow, is a finite float
    that is not negative. *)
Lemma py_truediv_megabytes_shape (total : Z) (x : spec_float) :
  0 <= total -> py_truediv total (1024 * 1024) = Ok x ->
  has_sign false x /\ finite_float x.
Proof.
  intros H0. unfold py_truediv.
  change (1024 * 1024 =? 0) with false. change (1024 * 1024 <? 0) with false.
  change (Z.abs (1024 * 1024)) with (2 ^ 20). cbv iota.
  destruct (Z.eqb_spec total 0) as [->|Hne].
  - intros [= <-]. by split.
  - assert ((total <? 0) = false) as -> by lia. rewrite Z.abs_eq by lia.
    pose proof (SFdiv_core_binary_nonneg total 0 (2 ^ 20) 0 H0 ltac:(lia)) as Hq.
    destruct (SFdiv_core_binary prec emax total 0 (2 ^ 20) 0) as [[q e] l].
    simpl in Hq. intros Hok.
    apply finite_or_overflow_Ok in Hok as [-> Hinf].
    split; [by apply binary_round_aux_sign|by apply binary_round_aux_finite_float].
Qed.

(** It does not overflow for a total below [2 ^ 1043]. *)
Lemma py_truediv_megabytes (total : Z) :
  0 <= total < 2 ^ 1043 -> exists x, py_truediv total (1024 * 1024) = Ok x.
Proof.
  intros [H0 Hlt]. unfold py_truediv.
  change (1024 * 1024 =? 0) with false. change (1024 * 1024 <? 0) with false.
  change (Z.abs (1024 * 1024)) with (2 ^ 20). cbv iota.
  destruct (Z.eqb_spec total 0) as [->|Hne]; [by eexists|].
  assert ((total <? 0) = false) as -> by lia. rewrite Z.abs_eq by lia.
  pose proof (SFdiv_core_binary_below total (2 ^ 20) 1023) as Hcore.
  destruct (SFdiv_core_binary prec emax total 0 (2 ^ 20) 0) as [[q e] l].
  destruct Hcore as (Hq & He & Hd); [lia|lia|lia| |].
  { rewrite <- Z.pow_add_r by lia. exact Hlt. }
  pose proof (binary_round_aux_finite 1023 (xorb false false) q e l Hq
                ltac:(unfold emax; lia) He Hd) as Hfin.
  eexists. apply finite_or_overflow_finite.
  apply binary_round_aux_finite_float; [done|].
  by eapply finite_below_not_infinity.
Qed.

Lemma round_half_even_div_bounds (n d : Z) :
  0 <= n -> 0 < d -> n / d <= round_half_even_div n d <= n / d + 1.
Proof.
  intros Hn Hd. unfold round_half_even_div.
  assert (Z.div_eucl n d = (n / d, n mod d)) as ->
    by (unfold Z.div, Z.modulo; by destruct (Z.div_eucl n d)).
  destruct (2 * (n mod d) ?= d); try destruct (Z.even (n / d)); lia.
Qed.

(** [round(x, 2)] of a finite float that is not negative is one again: a
    float without fractional bits is returned as it is, and one below
    [2 ^ 53] is far from the overflow threshold. *)
Lemma py_round_2_finite (x : spec_float) :
  has_sign false x -> finite_float x ->
  exists u, py_round x 2 = Ok u /\ has_sign false u /\ finite_float u.
Proof.
  intros Hsign Hfin. destruct x as [s|s| |s m e]; try done.
  - exists (S754_zero s). by repeat split.
  - simpl in Hsign. subst s. destruct Hfin as [Hd He]. unfold py_round.
    change (10 ^ 2) with 100.
    destruct (Z.leb_spec 0 e) as [Hpos|Hneg].
    + assert (0 < 2 ^ e) as Hpow by (apply Z.pow_pos_nonneg; lia).
      assert ((Zpos m * 2 ^ e * 100 =? 0) = false) as -> by (apply Z.eqb_neq; nia).
      destruct (SFdiv_core_binary_exact_100 (Zpos m * 2 ^ e) ltac:(nia))
        as (e' & He' & Hfexp & ->).
      rewrite Zdigits2_mul_pow2 in Hfexp by lia.
      replace (Zpos m * 2 ^ e * 2 ^ (- e')) with (Zpos m * 2 ^ (e - e'))
        by (rewrite <- Z.mul_assoc, <- Z.pow_add_r by lia; f_equal; f_equal; lia).
      assert (e' + (e - e') = e) as Hsum by lia.
      assert (- 1074 <= e' + (e - e') <= emax - prec) as Hrange
        by (unfold prec, emax in *; lia).
      assert (e' <= fexp prec emax (Zdigits2 (Zpos m) + (e' + (e - e')))) as Hfexp'
        by (by rewrite Hsum).
      destruct (binary_round_aux_exact false (Zpos m) (e - e') e'
                  ltac:(lia) ltac:(lia) Hd Hrange Hfexp') as [Hs Hf].
      eexists. split; [by apply finite_or_overflow_finite|]. by split.
    + set (k := round_half_even_div (Zpos m * 100) (2 ^ (- e))).
      assert (0 < 2 ^ (- e)) as Hpow by (apply Z.pow_pos_nonneg; lia).
      assert (0 <= k < 100 * 2 ^ 60) as [Hk0 Hk].
      { pose proof (round_half_even_div_bounds (Zpos m * 100) (2 ^ (- e))
                      ltac:(lia) Hpow) as [Hlow Hhigh]. fold k in Hlow, Hhigh.
        assert (0 <= Zpos m * 100 / 2 ^ (- e)) by (apply Z.div_pos; lia).
        assert (Zpos m * 100 / 2 ^ (- e) < 100 * 2 ^ 53); [|lia].
        apply Z.div_lt_upper_bound; [done|].
        pose proof (Zdigits2_above (Zpos m) ltac:(lia)) as Hm.
        assert (2 ^ Zdigits2 (Zpos m) <= 2 ^ 53)
          by (apply Z.pow_le_mono_r; unfold prec in Hd; lia).
        assert (2 ^ 1 <= 2 ^ (- e)) by (apply Z.pow_le_mono_r; lia).
        change (2 ^ 1) with 2 in *. nia. }
      destruct (Z.eqb_spec k 0) as [Hz|Hnz].
      * exists (S754_zero false). by repeat split.
      * pose proof (SFdiv_core_binary_below k 100 60 Hk0 ltac:(lia) ltac:(lia) Hk) as Hcore.
        destruct (SFdiv_core_binary prec emax k 0 100 0) as [[q e'] l].
        destruct Hcore as (Hq & He' & Hd').
        pose proof (binary_round_aux_finite 60 false q e' l Hq
                      ltac:(unfold emax; lia) He' Hd') as Hbelow.
        assert (finite_float (binary_round_aux prec emax false q e' l)) as Hf.
        { apply binary_round_aux_finite_float; [done|].
          by eapply finite_below_not_infinity. }
        eexists. split; [by apply finite_or_overflow_finite|].
        split; [by apply binary_round_aux_sign|done].
Qed.

(** ** The usage percentage *)

Lemma float_positive_cases (q : spec_float) :
  float_positive q = true ->
  q = S754_infinity false \/ exists m e, q = S754_finite false m e.
Proof.
  unfold float_positive, SFltb, SFcompare.
  destruct q as [s|[]| |[] m e]; try discriminate; eauto.
Qed.

(** A finite float that is not negative, over a positive one. *)
Lemma float_truediv_nonneg (x q : spec_float) :
  has_sign false x -> finite_float x -> float_positive q = true ->
  exists r, float_truediv x q = Ok r /\ has_sign false r.
Proof.
  intros Hsign Hfin Hq. unfold float_truediv.
  destruct (float_positive_cases q Hq) as [->|(mq & eq & ->)];
    cbn [float_is_zero]; eexists; (split; [reflexivity|]).
  - destruct x as [s|s| |s m e]; try done; simpl in Hsign |- *; by subst.
  - destruct x as [s|s| |s m e]; try done.
    + simpl in Hsign |- *. by subst.
    + simpl in Hsign. subst s. cbn [SFdiv xorb].
      pose proof (SFdiv_core_binary_nonneg (Zpos m) e (Zpos mq) eq ltac:(lia) ltac:(lia))
        as Hnonneg.
      destruct (SFdiv_core_binary prec emax (Zpos m) e (Zpos mq) eq) as [[mz ez] lz].
      by apply binary_round_aux_sign.
Qed.

Lemma float_of_int_100 :
  float_of_int 100 = Ok (S754_finite false 7036874417766400 (-46)).
Proof. reflexivity. Qed.

Lemma float_mul_int_100_nonneg (r : spec_float) :
  has_sign false r ->
  exists p, float_mul_int r 100 = Ok p /\ has_sign false p.
Proof.
  intros Hsign. unfold float_mul_int. rewrite float_of_int_100.
  eexists; split; [reflexivity|].
  destruct r as [s|s| |s m e]; try done; simpl in Hsign; subst s.
  - reflexivity.
  - reflexivity.
  - cbn [SFmul xorb]. by apply binary_round_aux_sign.
Qed.

(** [min(p, 100)] of a float that is not negative lies between 0 and 100. *)
Lemma py_min_100_in_range (p : spec_float) :
  has_sign false p -> in_0_100 (py_min p 100) = true.
Proof.
  intros Hsign. unfold py_min, float_gt_int.
  change (binary_normalize prec emax 100 0 false)
    with (S754_finite false 7036874417766400 (-46)).
  destruct (SFcompare p (S754_finite false 7036874417766400 (-46))) as [[]|] eqn:Hcmp;
    try reflexivity; unfold in_0_100;
    change (binary_normalize prec emax 100 0 false)
      with (S754_finite false 7036874417766400 (-46));
    unfold SFleb at 2; rewrite Hcmp; rewrite ?andb_true_r, ?andb_false_r.
  - destruct p as [s|s| |s m e]; try done; simpl in Hsign; by subst s.
  - destruct p as [s|s| |s m e]; try done; simpl in Hsign; by subst s.
  - destruct p as [s|s| |s m e]; try done.
Qed.

(** Once [total / (1024 * 1024)] has given a float, the three remaining
    steps of lines 114-115 and 177-178 succeed, for a total that is not
    negative and a positive quota. *)
Lemma usage_figures (total : Z) (quota quotient : spec_float) :
  0 <= total -> float_positive quota = true ->
  py_truediv total (1024 * 1024) = Ok quotient ->
  exists used_mb ratio percent,
    py_round quotient 2 = Ok used_mb
    /\ float_truediv used_mb quota = Ok ratio
    /\ float_mul_int ratio 100 = Ok percent
    /\ in_0_100 (py_min percent 100) = true.
Proof.
  intros Htotal Hquota Hdiv.
  destruct (py_truediv_megabytes_shape total quotient Htotal Hdiv) as [Hs1 Hf1].
  destruct (py_round_2_finite quotient Hs1 Hf1) as (used_mb & Hround & Hs2 & Hf2).
  destruct (float_truediv_nonneg used_mb quota Hs2 Hf2 Hquota) as (ratio & Hratio & Hs3).
  destruct (float_mul_int_100_nonneg ratio Hs3) as (percent & Hmul & Hs4).
  exists used_mb, ratio, percent.
  repeat split; try done. by apply py_min_100_in_range.
Qed.

(** C6, as amended.  Let the aggregated total be not negative and the quota
    a positive float.  Whenever [total / (1024 * 1024)] yields a float, which
    it does for every total below [2 ^ 1043], both read endpoints succeed; the
    usage percentage they report is
    [min(round(total / (1024 * 1024), 2) / quota * 100, 100)], computed in
    binary64 arithmetic, and it lies between 0 and 100. *)
Theorem usage_percentage_is_clamped_to_0_100 {World} (s3 : S3Client World)
    (BUCKET_NAME RGW_ENDPOINT : string) (BUCKET_QUOTA_MB : spec_float)
    (utcnow : World -> PyResult datetime * World) (os : Platform)
    (nfkd : list N -> list N) (request : Request) (env env' : Env World)
    (objs : list ObjectRecord) (total : Z) (counts : gmap string nat) :
  method request = "GET" ->
  get_bucket_info s3 BUCKET_NAME env = (Ok (objs, total, counts), env') ->
  0 <= total ->
  float_positive BUCKET_QUOTA_MB = true ->
  (total < 2 ^ 1043 -> exists quotient, py_truediv total (1024 * 1024) = Ok quotient)
  /\ forall quotient, py_truediv total (1024 * 1024) = Ok quotient ->
     exists used_mb ratio percent,
       py_round quotient 2 = Ok used_mb
       /\ float_truediv used_mb BUCKET_QUOTA_MB = Ok ratio
       /\ float_mul_int ratio 100 = Ok percent
       /\ index s3 BUCKET_NAME RGW_ENDPOINT BUCKET_QUOTA_MB utcnow os nfkd request env =
          (Ok (RenderIndex
                 {| Page.rgw_endpoint := RGW_ENDPOINT;
                    Page.bucket_name := BUCKET_NAME;
                    Page.objects := objs;
                    Page.used_mb := used_mb;
                    Page.bucket_quota_mb := BUCKET_QUOTA_MB;
                    Page.usage_percentage := py_min percent 100;
                    Page.sc_counts := counts |}), env')
       /\ api_summary s3 BUCKET_NAME BUCKET_QUOTA_MB env =
          (Ok (JsonSummary
                 {| Summary.sc_counts := counts;
                    Summary.used_mb := used_mb;
                    Summary.bucket_quota_mb := BUCKET_QUOTA_MB;
                    Summary.usage_percentage := py_min percent 100 |}), env')
       /\ in_0_100 (py_min percent 100) = true.
Proof.
  intros Hget Hrun Htotal Hquota.
  split; [intros Hlt; apply py_truediv_megabytes; lia|].
  intros quotient Hdiv.
  destruct (usage_figures total BUCKET_QUOTA_MB quotient Htotal Hquota Hdiv)
    as (used_mb & ratio & percent & Hround & Hratio & Hmul & Hrange).
  exists used_mb, ratio, percent.
  do 3 (split; [done|]).
  split; [|split; [|done]].
  - unfold index. rewrite Hget. cbn [String.eqb Ascii.eqb Bool.eqb].
    unfold index_GET, mbind, Py_bind, py_bind, lift, mret, Py_ret, py_ret.
    rewrite Hrun, Hdiv, Hround, Hratio, Hmul. reflexivity.
  - unfold api_summary, mbind, Py_bind, py_bind, lift, mret, Py_ret, py_ret.
    rewrite Hrun, Hdiv, Hround, Hratio, Hmul. reflexivity.
Qed.

Lemma usage_percentage_is_clamped_to_0_100_witness :
  exists counts used_mb percent,
    api_summary Fake.s3 default_BUCKET_NAME default_BUCKET_QUOTA_MB
      (Fake.env_of Fake.two_objects) =
    (Ok (JsonSummary
           {| Summary.sc_counts := counts;
              Summary.used_mb := used_mb;
              Summary.bucket_quota_mb := default_BUCKET_QUOTA_MB;
              Summary.usage_percentage := py_min percent 100 |}),
     with_world (Fake.env_of Fake.two_objects)
       (Fake.log "head_object"
          (Fake.log "head_object" (Fake.log "list_objects_v2" Fake.two_objects))))
    /\ in_0_100 (py_min percent 100) = true.
Proof.
  destruct (usage_percentage_is_clamped_to_0_100 Fake.s3 default_BUCKET_NAME
              default_RGW_ENDPOINT default_BUCKET_QUOTA_MB Fake.utcnow posix (fun l => l)
              Fake.get_index (Fake.env_of Fake.two_objects) _ _ 3145728 _
              eq_refl eq_refl)
    as [_ Hfigures].
  - lia.
  - reflexivity.
  - destruct (Hfigures (S754_finite false 6755399441055744 (-51)) eq_refl)
      as (used_mb & ratio & percent & _ & _ & _ & _ & Hsummary & Hrange).
    eexists _, used_mb, percent. split; [exact Hsummary|exact Hrange].
Defined.

(** C6, as stated, fails: a listing whose sizes add up to [2 ^ 1044] bytes
    makes [total_bytes / (1024 * 1024)] raise [OverflowError] in both read
    endpoints, although the total is not negative and the quota is the
    positive default of 20 MB; no usage percentage is produced. *)
Lemma usage_percentage_overflow_counterexample :
  fst (get_bucket_info Fake.s3 default_BUCKET_NAME (Fake.env_of Fake.astronomical))
    = Ok ([record_of {| Listed.Key := "huge.bin"; Listed.Size := 2 ^ 1044;
                        Listed.LastModified := Fake.new_year |} "STANDARD"],
          2 ^ 1044, {[ "STANDARD" := 1%nat ]})
  /\ 0 <= 2 ^ 1044
  /\ float_positive default_BUCKET_QUOTA_MB = true
  /\ fst (api_summary Fake.s3 default_BUCKET_NAME default_BUCKET_QUOTA_MB
            (Fake.env_of Fake.astronomical))
     = Raise "integer division result too large for a float"
  /\ fst (index Fake.s3 default_BUCKET_NAME default_RGW_ENDPOINT default_BUCKET_QUOTA_MB
            Fake.utcnow posix (fun l => l) Fake.get_index
            (Fake.env_of Fake.astronomical))
     = Raise "integer division result too large for a float".
Proof.
  split; [|split; [|split; [|split]]].
  - vm_compute. reflexivity.
  - lia.
  - reflexivity.
  - vm_compute. reflexivity.
  - vm_compute. reflexivity.
Qed.

(** ** The scenarios of the specification, run on the in-memory gateway *)

(** The empty bucket: nothing listed, 0.0 MB used, 0.0 percent. *)
Example scenario_empty_bucket :
  fst (api_summary Fake.s3 default_BUCKET_NAME default_BUCKET_QUOTA_MB
         (Fake.env_of (Fake.world_of []))) =
  Ok (JsonSummary
        {| Summary.sc_counts := ∅;
           Summary.used_mb := S754_zero false;
           Summary.bucket_quota_mb := default_BUCKET_QUOTA_MB;
           Summary.usage_percentage := PyFloat (S754_zero false) |}).
Proof. vm_compute. reflexivity. Qed.

(** Two STANDARD objects of 1 MB and 2 MB: 3145728 bytes, two records
    under STANDARD. *)
Example scenario_two_standard_objects :
  fst (get_bucket_info Fake.s3 default_BUCKET_NAME
         (Fake.env_of (Fake.world_of [Fake.object "one" 1048576 (Some "STANDARD");
                                      Fake.object "two" 2097152 (Some "STANDARD")]))) =
  Ok ([ {| Key := "one"; Size := 1048576; LastModified := Fake.new_year;
           StorageClass := "STANDARD" |};
        {| Key := "two"; Size := 2097152; LastModified := Fake.new_year;
           StorageClass := "STANDARD" |} ],
      3145728, {[ "STANDARD" := 2%nat ]}).
Proof. vm_compute. reflexivity. Qed.

(** 3145728 bytes are 3.0 MB, which is 15.0 percent of the default quota. *)
Example scenario_three_megabytes :
  py_truediv 3145728 (1024 * 1024) = Ok (S754_finite false 6755399441055744 (-51))
  /\ py_round (S754_finite false 6755399441055744 (-51)) 2
     = Ok (S754_finite false 6755399441055744 (-51))
  /\ float_truediv (S754_finite false 6755399441055744 (-51)) default_BUCKET_QUOTA_MB
     = Ok (S754_finite false 5404319552844595 (-55))
  /\ float_mul_int (S754_finite false 5404319552844595 (-55)) 100
     = Ok (S754_finite false 8444249301319680 (-49))
  /\ py_min (S754_finite false 8444249301319680 (-49)) 100
     = PyFloat (S754_finite false 8444249301319680 (-49)).
Proof. vm_compute. repeat split. Qed.

(** A quota of 10 MB and 15 MB used: 150.0 percent, reported as the int 100. *)
Example scenario_over_quota :
  py_truediv (15 * 1048576) (1024 * 1024) = Ok (S754_finite false 8444249301319680 (-49))
  /\ float_truediv (S754_finite false 8444249301319680 (-49))
                   (S754_finite false 5629499534213120 (-49))
     = Ok (S754_finite false 6755399441055744 (-52))
  /\ float_mul_int (S754_finite false 6755399441055744 (-52)) 100
     = Ok (S754_finite false 5277655813324800 (-45))
  /\ py_min (S754_finite false 5277655813324800 (-45)) 100 = PyInt 100.
Proof. vm_compute. repeat split. Qed.

(** The display name [../../etc/passwd] is stored under a key without
    separators. *)
Example scenario_path_traversal :
  secure_filename posix (fun l => l) (codepoints "../../etc/passwd") = "etc_passwd"
  /\ strftime_key_prefix Fake.new_year
       ++ secure_filename posix (fun l => l) (codepoints "../../etc/passwd")
     = "20250102030405_etc_passwd".
Proof. vm_compute. split; reflexivity. Qed.

(** * Further properties of the views *)

(** ** get_bucket_info: edge cases and effects *)

Lemma get_bucket_info_nothing_listed {World} (s3 : S3Client World) (BUCKET_NAME : string)
    (env : Env World) (r : PyResult ListObjectsV2Output) (w : World) :
  list_objects_v2 s3 BUCKET_NAME (world env) = (r, w) ->
  nothing_listed r ->
  get_bucket_info s3 BUCKET_NAME env =
  (Ok ([], 0, ∅),
   {| world := w; stdout := (stdout env ++ listing_warning r)%list;
      flashes := flashes env |}).
Proof.
  intros Hlist Hnone. destruct r as [resp|e].
  - rewrite (get_bucket_info_listed s3 BUCKET_NAME env resp w Hlist).
    simpl in Hnone. rewrite Hnone. unfold with_world. simpl.
    by rewrite app_nil_r.
  - by rewrite (get_bucket_info_unlisted s3 BUCKET_NAME env e w Hlist).
Qed.

(** X1. An empty bucket and a failed listing give the same value: when the
    listing call raises, or returns no entry (no ['Contents'] key, or an
    empty list), [get_bucket_info] returns the empty list, 0 bytes and the
    empty histogram, and makes no further client call.  The two cases differ
    only in the warning line printed for the failure. *)
Theorem empty_bucket_and_failed_listing_give_the_same_value {World}
    (s3 : S3Client World) (BUCKET_NAME : string) (env : Env World)
    (r : PyResult ListObjectsV2Output) (w : World) :
  list_objects_v2 s3 BUCKET_NAME (world env) = (r, w) ->
  nothing_listed r ->
  exists env',
    get_bucket_info s3 BUCKET_NAME env = (Ok ([], 0, ∅), env')
    /\ world env' = w
    /\ flashes env' = flashes env
    /\ stdout env' = (stdout env ++ listing_warning r)%list.
Proof.
  intros Hlist Hnone. eexists. split.
  - by apply get_bucket_info_nothing_listed.
  - by repeat split.
Qed.

Lemma empty_bucket_and_failed_listing_give_the_same_value_witness :
  (exists env',
     get_bucket_info Fake.s3 default_BUCKET_NAME (Fake.env_of Fake.listing_down)
       = (Ok ([], 0, ∅), env')
     /\ world env' = Fake.log "list_objects_v2" Fake.listing_down
     /\ flashes env' = []
     /\ stdout env' = ["[WARN] Error listing bucket contents: EndpointConnectionError"])
  /\ (exists env',
        get_bucket_info Fake.s3 default_BUCKET_NAME (Fake.env_of (Fake.world_of []))
          = (Ok ([], 0, ∅), env')
        /\ world env' = Fake.log "list_objects_v2" (Fake.world_of [])
        /\ flashes env' = []
        /\ stdout env' = []).
Proof.
  split.
  - exact (empty_bucket_and_failed_listing_give_the_same_value Fake.s3
             default_BUCKET_NAME (Fake.env_of Fake.listing_down) _ _ eq_refl I).
  - exact (empty_bucket_and_failed_listing_give_the_same_value Fake.s3
             default_BUCKET_NAME (Fake.env_of (Fake.world_of [])) _ _ eq_refl eq_refl).
Defined.

(** X2. After a successful listing the only client calls [get_bucket_info]
    makes are the HEAD requests, one per listed entry and in listing order:
    the world it leaves is the one these calls produce.  It prints nothing
    and flashes nothing. *)
Theorem get_bucket_info_calls_head_once_per_entry {World} (s3 : S3Client World)
    (BUCKET_NAME : string) (env : Env World) (resp : ListObjectsV2Output) (w : World) :
  list_objects_v2 s3 BUCKET_NAME (world env) = (Ok resp, w) ->
  snd (get_bucket_info s3 BUCKET_NAME env) =
  {| world := world_after_heads s3 BUCKET_NAME (listing resp) w;
     stdout := stdout env; flashes := flashes env |}.
Proof.
  intros Hlist.
  by rewrite (get_bucket_info_listed s3 BUCKET_NAME env resp w Hlist).
Qed.

Lemma get_bucket_info_calls_head_once_per_entry_witness :
  Fake.calls (world (snd (get_bucket_info Fake.s3 default_BUCKET_NAME
                            (Fake.env_of Fake.second_head_down))))
  = ["list_objects_v2"; "head_object"; "head_object"]
  /\ Fake.bucket (world (snd (get_bucket_info Fake.s3 default_BUCKET_NAME
                                (Fake.env_of Fake.second_head_down))))
     = Fake.bucket Fake.second_head_down.
Proof.
  rewrite (get_bucket_info_calls_head_once_per_entry Fake.s3 default_BUCKET_NAME
             (Fake.env_of Fake.second_head_down) _ _ eq_refl).
  split; reflexivity.
Defined.

Lemma sum_sizes_records_of {World} (s3 : S3Client World) (BUCKET_NAME : string)
    (l : list Listed.t) : forall w : World,
  sum_sizes (records_of s3 BUCKET_NAME l w) = listed_bytes l.
Proof.
  induction l as [|obj rest IH]; intros w; [reflexivity|].
  rewrite records_of_cons. unfold sum_sizes, listed_bytes in *. simpl.
  by rewrite IH.
Qed.

Lemma listed_bytes_bounds (l : list Listed.t) (bound : Z) :
  Forall (fun obj => 0 <= Listed.Size obj < bound) l ->
  0 <= listed_bytes l <= Z.of_nat (length l) * bound.
Proof.
  induction 1 as [|obj rest Hobj Hrest IH]; unfold listed_bytes in *; simpl; [lia|].
  rewrite Nat2Z.inj_succ. lia.
Qed.

(** X3. The total depends on the listing alone: after a successful listing
    [total_bytes] is the sum of the listed sizes, whatever the HEAD requests
    answer, and it is not negative when no listed size is. *)
Theorem total_bytes_is_sum_of_listed_sizes {World} (s3 : S3Client World)
    (BUCKET_NAME : string) (env : Env World) (resp : ListObjectsV2Output) (w : World) :
  list_objects_v2 s3 BUCKET_NAME (world env) = (Ok resp, w) ->
  exists objs total counts env',
    get_bucket_info s3 BUCKET_NAME env = (Ok (objs, total, counts), env')
    /\ total = listed_bytes (listing resp)
    /\ (Forall (fun obj => 0 <= Listed.Size obj) (listing resp) -> 0 <= total).
Proof.
  intros Hlist. eexists _, _, _, _.
  split; [by apply get_bucket_info_listed|].
  rewrite sum_sizes_records_of. split; [done|].
  induction 1 as [|obj rest Hobj Hrest IH]; unfold listed_bytes in *; simpl; lia.
Qed.

Lemma total_bytes_is_sum_of_listed_sizes_witness :
  exists objs total counts env',
    get_bucket_info Fake.s3 default_BUCKET_NAME (Fake.env_of Fake.heads_down)
      = (Ok (objs, total, counts), env')
    /\ total = 3145728
    /\ (Forall (fun obj => 0 <= Listed.Size obj)
          [ {| Listed.Key := "a.txt"; Listed.Size := 1048576;
               Listed.LastModified := Fake.new_year |};
            {| Listed.Key := "b.bin"; Listed.Size := 2097152;
               Listed.LastModified := Fake.new_year |} ] -> 0 <= total).
Proof.
  exact (total_bytes_is_sum_of_listed_sizes Fake.s3 default_BUCKET_NAME
           (Fake.env_of Fake.heads_down) _ _ eq_refl).
Defined.

(** X4. A storage class returned by the HEAD request is taken as it is:
    when the response for the i-th entry carries the field with value [c],
    whatever string [c] is (the empty string included), the i-th record
    bears [c] and is counted under [c]; the default STANDARD is not used. *)
Theorem returned_storage_class_is_kept_verbatim {World} (s3 : S3Client World)
    (BUCKET_NAME : string) (env : Env World) (resp : ListObjectsV2Output) (w : World)
    (i : nat) (obj : Listed.t) (c : string) :
  list_objects_v2 s3 BUCKET_NAME (world env) = (Ok resp, w) ->
  listing resp !! i = Some obj ->
  head_answers s3 BUCKET_NAME (listing resp) w !! i
    = Some (Ok {| head_StorageClass := Some c |}) ->
  exists objs total counts env',
    get_bucket_info s3 BUCKET_NAME env = (Ok (objs, total, counts), env')
    /\ objs !! i = Some (record_of obj c)
    /\ (exists n, counts !! c = Some (S n) /\ count_class c objs = S n).
Proof.
  intros Hlist Hobj Hsome. eexists _, _, _, _.
  split; [by apply get_bucket_info_listed|].
  pose proof (records_of_lookup s3 BUCKET_NAME _ w i obj _ Hobj Hsome) as Hrec.
  simpl in Hrec.
  split; [exact Hrec|].
  by eapply histogram_of_counted; [apply histogram_of_records|exact Hrec|].
Qed.

Lemma returned_storage_class_is_kept_verbatim_witness :
  exists objs total counts env',
    get_bucket_info Fake.s3 default_BUCKET_NAME (Fake.env_of Fake.two_objects)
      = (Ok (objs, total, counts), env')
    /\ objs !! 1%nat =
         Some {| Key := "b.bin"; Size := 2097152; LastModified := Fake.new_year;
                 StorageClass := "GLACIER" |}
    /\ (exists n, counts !! "GLACIER" = Some (S n) /\ count_class "GLACIER" objs = S n).
Proof.
  exact (returned_storage_class_is_kept_verbatim Fake.s3 default_BUCKET_NAME
           (Fake.env_of Fake.two_objects) _ _ 1%nat _ "GLACIER"
           eq_refl eq_refl eq_refl).
Defined.

(** ** api_filelist *)

Lemma api_filelist_run {World} (s3 : S3Client World) (BUCKET_NAME : string)
    (str_datetime : datetime -> string) (env env' : Env World)
    (objs : list ObjectRecord) (total : Z) (counts : gmap string nat) :
  get_bucket_info s3 BUCKET_NAME env = (Ok (objs, total, counts), env') ->
  api_filelist s3 BUCKET_NAME str_datetime env
  = (Ok (map (stringify str_datetime) objs), env').
Proof.
  intros Hrun. unfold api_filelist, mbind, Py_bind, py_bind, mret, Py_ret, py_ret.
  by rewrite Hrun.
Qed.

(** X5. After a successful listing, [api_filelist] returns normally one
    entry per listed object, in listing order: the i-th entry has the key
    and the size of the i-th listed object, the string form of its
    modification time, and the storage class its HEAD answer resolves to. *)
Theorem api_filelist_has_one_entry_per_listed_object {World} (s3 : S3Client World)
    (BUCKET_NAME : string) (str_datetime : datetime -> string) (env : Env World)
    (resp : ListObjectsV2Output) (w : World) :
  list_objects_v2 s3 BUCKET_NAME (world env) = (Ok resp, w) ->
  exists entries env',
    api_filelist s3 BUCKET_NAME str_datetime env = (Ok entries, env')
    /\ length entries = length (listing resp)
    /\ forall i obj r,
         listing resp !! i = Some obj ->
         head_answers s3 BUCKET_NAME (listing resp) w !! i = Some r ->
         entries !! i =
         Some {| FileList.Key := Listed.Key obj;
                 FileList.Size := Listed.Size obj;
                 FileList.LastModified := str_datetime (Listed.LastModified obj);
                 FileList.StorageClass := class_of_answer r |}.
Proof.
  intros Hlist. eexists _, _. split.
  - eapply api_filelist_run. by apply get_bucket_info_listed.
  - split; [by rewrite length_map, records_of_length|].
    intros i obj r Hobj Hr. change map with (@fmap list _).
    rewrite list_lookup_fmap.
    by rewrite (records_of_lookup s3 BUCKET_NAME _ w i obj r Hobj Hr).
Qed.

Lemma api_filelist_has_one_entry_per_listed_object_witness :
  exists entries env',
    api_filelist Fake.s3 default_BUCKET_NAME (fun _ => "2025-01-02 03:04:05+00:00")
      (Fake.env_of Fake.second_head_down) = (Ok entries, env')
    /\ length entries = 2%nat
    /\ forall i obj r,
         [ {| Listed.Key := "a.txt"; Listed.Size := 1048576;
              Listed.LastModified := Fake.new_year |};
           {| Listed.Key := "b.bin"; Listed.Size := 2097152;
              Listed.LastModified := Fake.new_year |} ] !! i = Some obj ->
         [ Ok {| head_StorageClass := None |}; Raise "ClientError" ] !! i = Some r ->
         entries !! i =
         Some {| FileList.Key := Listed.Key obj;
                 FileList.Size := Listed.Size obj;
                 FileList.LastModified := "2025-01-02 03:04:05+00:00";
                 FileList.StorageClass := class_of_answer r |}.
Proof.
  exact (api_filelist_has_one_entry_per_listed_object Fake.s3 default_BUCKET_NAME
           (fun _ => "2025-01-02 03:04:05+00:00") (Fake.env_of Fake.second_head_down)
           _ _ eq_refl).
Defined.

(** X6. [api_filelist] answers the empty array both for an empty bucket and
    for a bucket that cannot be listed: when the listing call raises or
    returns no entry, the view returns normally with no entry, so that a
    client of the JSON inventory cannot tell the two cases apart. *)
Theorem api_filelist_is_empty_when_nothing_is_listed {World} (s3 : S3Client World)
    (BUCKET_NAME : string) (str_datetime : datetime -> string) (env : Env World)
    (r : PyResult ListObjectsV2Output) (w : World) :
  list_objects_v2 s3 BUCKET_NAME (world env) = (r, w) ->
  nothing_listed r ->
  fst (api_filelist s3 BUCKET_NAME str_datetime env) = Ok [].
Proof.
  intros Hlist Hnone.
  by rewrite (api_filelist_run s3 BUCKET_NAME str_datetime env _ _ _ _
                (get_bucket_info_nothing_listed s3 BUCKET_NAME env r w Hlist Hnone)).
Qed.

Lemma api_filelist_is_empty_when_nothing_is_listed_witness :
  fst (api_filelist Fake.s3 default_BUCKET_NAME (fun _ => "")
         (Fake.env_of Fake.listing_down)) = Ok []
  /\ fst (api_filelist Fake.s3 default_BUCKET_NAME (fun _ => "")
            (Fake.env_of (Fake.world_of []))) = Ok [].
Proof.
  split.
  - exact (api_filelist_is_empty_when_nothing_is_listed Fake.s3 default_BUCKET_NAME
             (fun _ => "") (Fake.env_of Fake.listing_down) _ _ eq_refl I).
  - exact (api_filelist_is_empty_when_nothing_is_listed Fake.s3 default_BUCKET_NAME
             (fun _ => "") (Fake.env_of (Fake.world_of [])) _ _ eq_refl eq_refl).
Defined.

Lemma api_summary_inv {World} (s3 : S3Client World) (BUCKET_NAME : string)
    (BUCKET_QUOTA_MB : spec_float) (env env1 : Env World) (summary : Response) :
  api_summary s3 BUCKET_NAME BUCKET_QUOTA_MB env = (Ok summary, env1) ->
  exists objs total counts quotient used_mb ratio percent,
    get_bucket_info s3 BUCKET_NAME env = (Ok (objs, total, counts), env1)
    /\ py_truediv total (1024 * 1024) = Ok quotient
    /\ py_round quotient 2 = Ok used_mb
    /\ float_truediv used_mb BUCKET_QUOTA_MB = Ok ratio
    /\ float_mul_int ratio 100 = Ok percent
    /\ summary = JsonSummary
         {| Summary.sc_counts := counts;
            Summary.used_mb := used_mb;
            Summary.bucket_quota_mb := BUCKET_QUOTA_MB;
            Summary.usage_percentage := py_min percent 100 |}.
Proof.
  unfold api_summary, mbind, Py_bind, py_bind, lift, mret, Py_ret, py_ret.
  destruct (get_bucket_info s3 BUCKET_NAME env) as [[[[objs total] counts]|e] env2];
    [|discriminate].
  destruct (py_truediv total (1024 * 1024)) as [quotient|e] eqn:Hdiv; [|discriminate].
  destruct (py_round quotient 2) as [used_mb|e] eqn:Hround; [|discriminate].
  destruct (float_truediv used_mb BUCKET_QUOTA_MB) as [ratio|e] eqn:Hratio;
    [|discriminate].
  destruct (float_mul_int ratio 100) as [percent|e] eqn:Hmul; [|discriminate].
  intros [= <- <-]. by exists objs, total, counts, quotient, used_mb, ratio, percent.
Qed.

Lemma count_entries_stringify (str_datetime : datetime -> string) (c : string)
    (objs : list ObjectRecord) :
  count_entries c (map (stringify str_datetime) objs) = count_class c objs.
Proof.
  unfold count_entries, count_class.
  induction objs as [|o objs IH]; [reflexivity|].
  cbn [map]. rewrite !filter_cons. cbn [stringify FileList.StorageClass].
  destruct (decide (StorageClass o = c)); simpl; by rewrite IH.
Qed.

Lemma api_summary_two_objects :
  api_summary Fake.s3 default_BUCKET_NAME default_BUCKET_QUOTA_MB
    (Fake.env_of Fake.two_objects)
  = (Ok (JsonSummary
           {| Summary.sc_counts := {[ "STANDARD" := 1%nat; "GLACIER" := 1%nat ]};
              Summary.used_mb := S754_finite false 6755399441055744 (-51);
              Summary.bucket_quota_mb := default_BUCKET_QUOTA_MB;
              Summary.usage_percentage :=
                PyFloat (S754_finite false 8444249301319680 (-49)) |}),
     with_world (Fake.env_of Fake.two_objects)
       (Fake.log "head_object"
          (Fake.log "head_object" (Fake.log "list_objects_v2" Fake.two_objects)))).
Proof. vm_compute. reflexivity. Qed.

(** X7. The two JSON endpoints agree: when [api_summary] succeeds,
    [api_filelist] run on the same state succeeds and leaves the same state,
    the number of its entries is the sum of the values of the reported
    [sc_counts], and [sc_counts] maps a label to the number of entries that
    bear it. *)
Theorem api_filelist_agrees_with_api_summary {World} (s3 : S3Client World)
    (BUCKET_NAME : string) (BUCKET_QUOTA_MB : spec_float)
    (str_datetime : datetime -> string) (env env1 : Env World) (summary : Summary.t) :
  api_summary s3 BUCKET_NAME BUCKET_QUOTA_MB env = (Ok (JsonSummary summary), env1) ->
  exists entries,
    api_filelist s3 BUCKET_NAME str_datetime env = (Ok entries, env1)
    /\ sum_counts (Summary.sc_counts summary) = length entries
    /\ forall c n, Summary.sc_counts summary !! c = Some n -> n = count_entries c entries.
Proof.
  intros Hsummary.
  destruct (api_summary_inv s3 BUCKET_NAME BUCKET_QUOTA_MB env env1 _ Hsummary)
    as (objs & total & counts & quotient & used_mb & ratio & percent
        & Hrun & _ & _ & _ & _ & [= ->]).
  exists (map (stringify str_datetime) objs).
  split; [by eapply api_filelist_run|].
  destruct (get_bucket_info_fold s3 BUCKET_NAME env) as (rs & env' & Hfold & _).
  rewrite Hfold in Hrun. injection Hrun as <- <- <- <-.
  cbn [Summary.sc_counts]. rewrite length_map. split; [apply sum_counts_records|].
  intros c n Hc. rewrite count_entries_stringify.
  rewrite (histogram_of_records rs c) in Hc.
  destruct (count_class c rs); by inversion Hc.
Qed.

Lemma api_filelist_agrees_with_api_summary_witness :
  exists entries,
    api_filelist Fake.s3 default_BUCKET_NAME (fun _ => "")
      (Fake.env_of Fake.two_objects)
    = (Ok entries,
       with_world (Fake.env_of Fake.two_objects)
         (Fake.log "head_object"
            (Fake.log "head_object" (Fake.log "list_objects_v2" Fake.two_objects))))
    /\ sum_counts {[ "STANDARD" := 1%nat; "GLACIER" := 1%nat ]} = length entries.
Proof.
  destruct (api_filelist_agrees_with_api_summary Fake.s3 default_BUCKET_NAME
              default_BUCKET_QUOTA_MB (fun _ => "") (Fake.env_of Fake.two_objects)
              _ _ api_summary_two_objects) as (entries & Hrun & Hsum & _).
  exists entries. split; [exact Hrun|exact Hsum].
Defined.

(** ** The read endpoints *)

Lemma index_GET_run {World} (s3 : S3Client World) (BUCKET_NAME RGW_ENDPOINT : string)
    (BUCKET_QUOTA_MB : spec_float) (env : Env World) :
  index_GET s3 BUCKET_NAME RGW_ENDPOINT BUCKET_QUOTA_MB env =
  match api_summary s3 BUCKET_NAME BUCKET_QUOTA_MB env with
  | (Ok (JsonSummary summary), env1) =>
      (Ok (RenderIndex
             {| Page.rgw_endpoint := RGW_ENDPOINT;
                Page.bucket_name := BUCKET_NAME;
                Page.objects := fst (fst (match fst (get_bucket_info s3 BUCKET_NAME env) with
                                          | Ok v => v
                                          | Raise _ => ([], 0, ∅)
                                          end));
                Page.used_mb := Summary.used_mb summary;
                Page.bucket_quota_mb := BUCKET_QUOTA_MB;
                Page.usage_percentage := Summary.usage_percentage summary;
                Page.sc_counts := Summary.sc_counts summary |}), env1)
  | (Ok other, env1) => (Ok other, env1)
  | (Raise e, env1) => (Raise e, env1)
  end.
Proof.
  unfold index_GET, api_summary, mbind, Py_bind, py_bind, lift, mret, Py_ret, py_ret.
  destruct (get_bucket_info s3 BUCKET_NAME env) as [[[[objs total] counts]|e] env2];
    [|reflexivity].
  destruct (py_truediv total (1024 * 1024)) as [quotient|e]; [|reflexivity].
  destruct (py_round quotient 2) as [used_mb|e]; [|reflexivity].
  destruct (float_truediv used_mb BUCKET_QUOTA_MB) as [ratio|e]; [|reflexivity].
  destruct (float_mul_int ratio 100) as [percent|e]; reflexivity.
Qed.

(** X8. The page and the JSON summary show the same figures: on a GET
    request [index] raises exactly when [api_summary], run on the same
    state, raises, and with the same error; otherwise the page carries the
    [used_mb], [usage_percentage], [bucket_quota_mb] and [sc_counts] of the
    summary, and both views leave the same state. *)
Theorem index_shows_the_figures_of_api_summary {World} (s3 : S3Client World)
    (BUCKET_NAME RGW_ENDPOINT : string) (BUCKET_QUOTA_MB : spec_float)
    (utcnow : World -> PyResult datetime * World) (os : Platform)
    (nfkd : list N -> list N) (request : Request) (env : Env World) :
  method request = "GET" ->
  (forall e env1,
     api_summary s3 BUCKET_NAME BUCKET_QUOTA_MB env = (Raise e, env1) ->
     index s3 BUCKET_NAME RGW_ENDPOINT BUCKET_QUOTA_MB utcnow os nfkd request env
     = (Raise e, env1))
  /\ (forall summary env1,
        api_summary s3 BUCKET_NAME BUCKET_QUOTA_MB env = (Ok (JsonSummary summary), env1) ->
        exists page,
          index s3 BUCKET_NAME RGW_ENDPOINT BUCKET_QUOTA_MB utcnow os nfkd request env
          = (Ok (RenderIndex page), env1)
          /\ Page.used_mb page = Summary.used_mb summary
          /\ Page.usage_percentage page = Summary.usage_percentage summary
          /\ Page.bucket_quota_mb page = Summary.bucket_quota_mb summary
          /\ Page.sc_counts page = Summary.sc_counts summary).
Proof.
  intros Hget. unfold index. rewrite Hget. cbn [String.eqb Ascii.eqb Bool.eqb].
  rewrite index_GET_run. split.
  - intros e env1 ->. reflexivity.
  - intros summary env1 Hsummary.
    destruct (api_summary_inv s3 BUCKET_NAME BUCKET_QUOTA_MB env env1 _ Hsummary)
      as (objs & total & counts & quotient & used_mb & ratio & percent
          & _ & _ & _ & _ & _ & [= ->]).
    rewrite Hsummary. eexists. split; [reflexivity|]. by repeat split.
Qed.

Lemma index_shows_the_figures_of_api_summary_witness :
  exists page,
    index Fake.s3 default_BUCKET_NAME default_RGW_ENDPOINT default_BUCKET_QUOTA_MB
      Fake.utcnow posix (fun l => l) Fake.get_index (Fake.env_of Fake.two_objects)
    = (Ok (RenderIndex page),
       with_world (Fake.env_of Fake.two_objects)
         (Fake.log "head_object"
            (Fake.log "head_object" (Fake.log "list_objects_v2" Fake.two_objects))))
    /\ Page.used_mb page = S754_finite false 6755399441055744 (-51)
    /\ Page.usage_percentage page = PyFloat (S754_finite false 8444249301319680 (-49)).
Proof.
  destruct (index_shows_the_figures_of_api_summary Fake.s3 default_BUCKET_NAME
              default_RGW_ENDPOINT default_BUCKET_QUOTA_MB Fake.utcnow posix
              (fun l => l) Fake.get_index (Fake.env_of Fake.two_objects) eq_refl)
    as [_ Hok].
  destruct (Hok _ _ api_summary_two_objects) as (page & Hrun & Hused & Husage & _ & _).
  exists page. split; [exact Hrun|]. split; [exact Hused|exact Husage].
Defined.

Lemma float_truediv_zero (quota : spec_float) :
  float_positive quota = true ->
  float_truediv (S754_zero false) quota = Ok (S754_zero false).
Proof.
  intros Hq. destruct (float_positive_cases quota Hq) as [->|(m & e & ->)]; reflexivity.
Qed.

(** X9. With nothing listed the dashboard still renders, and shows zeros:
    when the listing call raises or returns no entry and the quota is a
    positive float, [api_summary] succeeds with an empty [sc_counts],
    [used_mb = 0.0] and [usage_percentage = 0.0]. *)
Theorem api_summary_shows_zeros_when_nothing_is_listed {World} (s3 : S3Client World)
    (BUCKET_NAME : string) (BUCKET_QUOTA_MB : spec_float) (env : Env World)
    (r : PyResult ListObjectsV2Output) (w : World) :
  list_objects_v2 s3 BUCKET_NAME (world env) = (r, w) ->
  nothing_listed r ->
  float_positive BUCKET_QUOTA_MB = true ->
  fst (api_summary s3 BUCKET_NAME BUCKET_QUOTA_MB env) =
  Ok (JsonSummary
        {| Summary.sc_counts := ∅;
           Summary.used_mb := S754_zero false;
           Summary.bucket_quota_mb := BUCKET_QUOTA_MB;
           Summary.usage_percentage := PyFloat (S754_zero false) |}).
Proof.
  intros Hlist Hnone Hquota.
  unfold api_summary, mbind, Py_bind, py_bind, lift, mret, Py_ret, py_ret.
  rewrite (get_bucket_info_nothing_listed s3 BUCKET_NAME env r w Hlist Hnone).
  change (py_truediv 0 (1024 * 1024)) with (@Ok spec_float (S754_zero false)).
  cbn [py_round]. rewrite (float_truediv_zero BUCKET_QUOTA_MB Hquota).
  reflexivity.
Qed.

Lemma api_summary_shows_zeros_when_nothing_is_listed_witness :
  fst (api_summary Fake.s3 default_BUCKET_NAME default_BUCKET_QUOTA_MB
         (Fake.env_of Fake.listing_down)) =
  Ok (JsonSummary
        {| Summary.sc_counts := ∅;
           Summary.used_mb := S754_zero false;
           Summary.bucket_quota_mb := default_BUCKET_QUOTA_MB;
           Summary.usage_percentage := PyFloat (S754_zero false) |}).
Proof.
  exact (api_summary_shows_zeros_when_nothing_is_listed Fake.s3 default_BUCKET_NAME
           default_BUCKET_QUOTA_MB (Fake.env_of Fake.listing_down) _ _
           eq_refl I eq_refl).
Defined.

(** X10. A quota of zero breaks both read endpoints: when
    [BUCKET_QUOTA_MB] is [0.0] or [-0.0] and the total is not negative and
    below [2 ^ 1043], [api_summary] and [index] on a GET request raise
    "float division by zero" after the aggregation has run. *)
Theorem zero_quota_raises_ZeroDivisionError {World} (s3 : S3Client World)
    (BUCKET_NAME RGW_ENDPOINT : string) (BUCKET_QUOTA_MB : spec_float)
    (utcnow : World -> PyResult datetime * World) (os : Platform)
    (nfkd : list N -> list N) (request : Request) (env env' : Env World)
    (objs : list ObjectRecord) (total : Z) (counts : gmap string nat) :
  method request = "GET" ->
  get_bucket_info s3 BUCKET_NAME env = (Ok (objs, total, counts), env') ->
  0 <= total < 2 ^ 1043 ->
  float_is_zero BUCKET_QUOTA_MB = true ->
  api_summary s3 BUCKET_NAME BUCKET_QUOTA_MB env
    = (Raise "float division by zero", env')
  /\ index s3 BUCKET_NAME RGW_ENDPOINT BUCKET_QUOTA_MB utcnow os nfkd request env
     = (Raise "float division by zero", env').
Proof.
  intros Hget Hrun Htotal Hzero.
  destruct (py_truediv_megabytes total Htotal) as (quotient & Hdiv).
  destruct (py_truediv_megabytes_shape total quotient ltac:(lia) Hdiv) as [Hs Hf].
  destruct (py_round_2_finite quotient Hs Hf) as (used_mb & Hround & _ & _).
  assert (api_summary s3 BUCKET_NAME BUCKET_QUOTA_MB env
          = (Raise "float division by zero", env')) as Hsummary.
  { unfold api_summary, mbind, Py_bind, py_bind, lift, mret, Py_ret, py_ret.
    rewrite Hrun, Hdiv, Hround. unfold float_truediv. by rewrite Hzero. }
  split; [exact Hsummary|].
  unfold index. rewrite Hget. cbn [String.eqb Ascii.eqb Bool.eqb].
  by rewrite index_GET_run, Hsummary.
Qed.

Lemma zero_quota_raises_ZeroDivisionError_witness :
  api_summary Fake.s3 default_BUCKET_NAME (S754_zero false)
    (Fake.env_of Fake.two_objects)
  = (Raise "float division by zero",
     with_world (Fake.env_of Fake.two_objects)
       (Fake.log "head_object"
          (Fake.log "head_object" (Fake.log "list_objects_v2" Fake.two_objects)))).
Proof.
  refine (proj1 (zero_quota_raises_ZeroDivisionError Fake.s3 default_BUCKET_NAME
           default_RGW_ENDPOINT (S754_zero false) Fake.utcnow posix (fun l => l)
           Fake.get_index (Fake.env_of Fake.two_objects) _ _ 3145728 _
           eq_refl eq_refl _ eq_refl)).
  lia.
Defined.

(** X11. Sizes that fit 64 bits never overflow the figures: when every
    listed size is at least 0 and below [2 ^ 64], the listing has fewer than
    [2 ^ 64] entries and the quota is a positive float, [api_summary]
    succeeds and its [usage_percentage] lies between 0 and 100. *)
Theorem api_summary_succeeds_for_64_bit_sizes {World} (s3 : S3Client World)
    (BUCKET_NAME : string) (BUCKET_QUOTA_MB : spec_float) (env : Env World)
    (resp : ListObjectsV2Output) (w : World) :
  list_objects_v2 s3 BUCKET_NAME (world env) = (Ok resp, w) ->
  Forall (fun obj => 0 <= Listed.Size obj < 2 ^ 64) (listing resp) ->
  Z.of_nat (length (listing resp)) < 2 ^ 64 ->
  float_positive BUCKET_QUOTA_MB = true ->
  exists summary env',
    api_summary s3 BUCKET_NAME BUCKET_QUOTA_MB env = (Ok (JsonSummary summary), env')
    /\ in_0_100 (Summary.usage_percentage summary) = true.
Proof.
  intros Hlist Hsizes Hlen Hquota.
  pose proof (get_bucket_info_listed s3 BUCKET_NAME env resp w Hlist) as Hrun.
  rewrite sum_sizes_records_of in Hrun.
  pose proof (listed_bytes_bounds (listing resp) (2 ^ 64) Hsizes) as [Hlow Hhigh].
  assert (0 <= listed_bytes (listing resp) < 2 ^ 1043) as Htotal.
  { split; [done|].
    apply Z.le_lt_trans with (Z.of_nat (length (listing resp)) * 2 ^ 64); [done|].
    apply Z.lt_le_trans with (2 ^ 64 * 2 ^ 64); [nia|].
    rewrite <- Z.pow_add_r by lia. apply Z.pow_le_mono_r; lia. }
  destruct (py_truediv_megabytes _ Htotal) as (quotient & Hdiv).
  destruct (usage_figures _ BUCKET_QUOTA_MB quotient Hlow Hquota Hdiv)
    as (used_mb & ratio & percent & Hround & Hratio & Hmul & Hrange).
  eexists _, _. split.
  - unfold api_summary, mbind, Py_bind, py_bind, lift, mret, Py_ret, py_ret.
    rewrite Hrun, Hdiv, Hround, Hratio, Hmul. reflexivity.
  - exact Hrange.
Qed.

Lemma api_summary_succeeds_for_64_bit_sizes_witness :
  exists summary env',
    api_summary Fake.s3 default_BUCKET_NAME default_BUCKET_QUOTA_MB
      (Fake.env_of Fake.two_objects) = (Ok (JsonSummary summary), env')
    /\ in_0_100 (Summary.usage_percentage summary) = true.
Proof.
  apply (api_summary_succeeds_for_64_bit_sizes Fake.s3 default_BUCKET_NAME
           default_BUCKET_QUOTA_MB (Fake.env_of Fake.two_objects) _ _ eq_refl).
  - repeat constructor; simpl; lia.
  - simpl. lia.
  - reflexivity.
Defined.

(** ** index on a POST request *)

Lemma index_POST_clock_failure {World} (s3 : S3Client World) (BUCKET_NAME : string)
    (utcnow : World -> PyResult datetime * World) (os : Platform) (nfkd : list N -> list N)
    (request : Request) (env : Env World) (upfile : FileStorage) (e : string) (w1 : World) :
  files request !! "file" = Some upfile ->
  filename upfile <> [] ->
  utcnow (world env) = (Raise e, w1) ->
  index_POST s3 BUCKET_NAME utcnow os nfkd request env =
  (Ok (Redirect "/"),
   {| world := w1; stdout := stdout env;
      flashes := (flashes env ++ [(("Upload failed: " ++ e)%string, "danger")])%list |}).
Proof.
  intros Hfile Hname Hnow. unfold index_POST. rewrite Hfile.
  rewrite bool_decide_eq_false_2 by done.
  unfold try_except, mbind, Py_bind, py_bind, call, flash, mret, Py_ret, py_ret.
  cbn [get_env set_env HasEnv_self world stdout flashes]. rewrite Hnow.
  reflexivity.
Qed.

(** X12. A POST request is always answered by a redirect and exactly one
    flashed message: [index] raises nothing, whatever the clock and
    [put_object] do, prints nothing, and appends one message of category
    warning, success or danger.  The category is success only when a named
    file part was sent and [put_object], called with the time-stamped key,
    returned normally; the world is then the one that call left. *)
Theorem upload_always_redirects_with_one_flash {World} (s3 : S3Client World)
    (BUCKET_NAME RGW_ENDPOINT : string) (BUCKET_QUOTA_MB : spec_float)
    (utcnow : World -> PyResult datetime * World) (os : Platform)
    (nfkd : list N -> list N) (request : Request) (env : Env World) :
  method request = "POST" ->
  exists location message category env',
    index s3 BUCKET_NAME RGW_ENDPOINT BUCKET_QUOTA_MB utcnow os nfkd request env
      = (Ok (Redirect location), env')
    /\ stdout env' = stdout env
    /\ flashes env' = (flashes env ++ [(message, category)])%list
    /\ (category = "warning" \/ category = "success" \/ category = "danger")
    /\ (category = "success" ->
        exists upfile now w1,
          files request !! "file" = Some upfile
          /\ filename upfile <> []
          /\ utcnow (world env) = (Ok now, w1)
          /\ put_object s3 BUCKET_NAME
               (strftime_key_prefix now ++ secure_filename os nfkd (filename upfile))
               (stream_read upfile) "public-read" w1 = (Ok tt, world env')).
Proof.
  intros Hpost. unfold index. rewrite Hpost. cbn [String.eqb Ascii.eqb Bool.eqb].
  destruct (files request !! "file") as [upfile|] eqn:Hfile.
  - destruct (decide (filename upfile = [])) as [Hname|Hname].
    + rewrite (index_POST_empty_name s3 BUCKET_NAME utcnow os nfkd request env upfile
                 Hfile Hname).
      eexists _, _, "warning", _. split; [reflexivity|].
      repeat split; [by left|discriminate].
    + destruct (utcnow (world env)) as [[now|e] w1] eqn:Hnow.
      * rewrite (index_POST_upload s3 BUCKET_NAME utcnow os nfkd request env upfile
                   now w1 Hfile Hname Hnow).
        destruct (put_object s3 BUCKET_NAME _ (stream_read upfile) "public-read" w1)
          as [[[]|e] w2] eqn:Hput.
        -- eexists _, _, "success", _. split; [reflexivity|].
           repeat split; [by right; left|].
           intros _. by exists upfile, now, w1.
        -- eexists _, _, "danger", _. split; [reflexivity|].
           repeat split; [by right; right|discriminate].
      * rewrite (index_POST_clock_failure s3 BUCKET_NAME utcnow os nfkd request env
                   upfile e w1 Hfile Hname Hnow).
        eexists _, _, "danger", _. split; [reflexivity|].
        repeat split; [by right; right|discriminate].
  - rewrite (index_POST_no_file s3 BUCKET_NAME utcnow os nfkd request env Hfile).
    eexists _, _, "warning", _. split; [reflexivity|].
    repeat split; [by left|discriminate].
Qed.

Lemma upload_always_redirects_with_one_flash_witness :
  exists location message category env',
    index Fake.s3 default_BUCKET_NAME default_RGW_ENDPOINT default_BUCKET_QUOTA_MB
      Fake.utcnow posix (fun l => l) post_report (Fake.env_of Fake.two_objects)
      = (Ok (Redirect location), env')
    /\ stdout env' = []
    /\ flashes env' = [(message, category)]
    /\ (category = "warning" \/ category = "success" \/ category = "danger").
Proof.
  destruct (upload_always_redirects_with_one_flash Fake.s3 default_BUCKET_NAME
              default_RGW_ENDPOINT default_BUCKET_QUOTA_MB Fake.utcnow posix
              (fun l => l) post_report (Fake.env_of Fake.two_objects) eq_refl)
    as (location & message & category & env' & Hrun & Hout & Hflash & Hcat & _).
  by exists location, message, category, env'.
Defined.

(** X13. Two uploads are stored under the same key only if they were made
    in the same UTC second under the same sanitised name: for clock readings
    in the years 1000 to 9999, equal keys [stamp ++ name] come from equal
    clock readings and equal names.  The time stamp has a resolution of one
    second and nothing else tells uploads apart. *)
Theorem upload_keys_coincide_only_for_same_second_and_name (t1 t2 : datetime)
    (name1 name2 : string) :
  valid_datetime t1 -> valid_datetime t2 ->
  strftime_key_prefix t1 ++ name1 = strftime_key_prefix t2 ++ name2 ->
  t1 = t2 /\ name1 = name2.
Proof.
  intros (Hy1 & Hmo1 & Hd1 & Hh1 & Hmi1 & Hs1) (Hy2 & Hmo2 & Hd2 & Hh2 & Hmi2 & Hs2) Hkey.
  apply (f_equal list_ascii_of_string) in Hkey.
  rewrite !list_ascii_of_string_app, !strftime_key_prefix_chars, <- !app_assoc in Hkey.
  apply app_inj_1 in Hkey as [Hstamp Hrest]; [|reflexivity].
  injection Hrest as Hname.
  apply (f_equal string_of_list_ascii) in Hname.
  rewrite !string_of_list_ascii_of_string in Hname.
  split; [|exact Hname].
  pose proof (f_equal (fun l => decimal (take 4 l)) Hstamp) as Hyear.
  pose proof (f_equal (fun l => decimal (take 2 (drop 4 l))) Hstamp) as Hmonth.
  pose proof (f_equal (fun l => decimal (take 2 (drop 6 l))) Hstamp) as Hday.
  pose proof (f_equal (fun l => decimal (take 2 (drop 8 l))) Hstamp) as Hhour.
  pose proof (f_equal (fun l => decimal (take 2 (drop 10 l))) Hstamp) as Hminute.
  pose proof (f_equal (fun l => decimal (take 2 (drop 12 l))) Hstamp) as Hsecond.
  change (decimal (four_digits (year t1)) = decimal (four_digits (year t2))) in Hyear.
  change (decimal (two_digits (month t1)) = decimal (two_digits (month t2))) in Hmonth.
  change (decimal (two_digits (day t1)) = decimal (two_digits (day t2))) in Hday.
  change (decimal (two_digits (hour t1)) = decimal (two_digits (hour t2))) in Hhour.
  change (decimal (two_digits (minute t1)) = decimal (two_digits (minute t2))) in Hminute.
  change (decimal (two_digits (second t1)) = decimal (two_digits (second t2))) in Hsecond.
  rewrite !decimal_four_digits in Hyear by lia.
  rewrite !decimal_two_digits in Hmonth, Hday, Hhour, Hminute, Hsecond by lia.
  destruct t1, t2; simpl in *; by subst.
Qed.

Lemma upload_keys_coincide_only_for_same_second_and_name_witness :
  Fake.new_year = Fake.new_year /\ "etc_passwd" = "etc_passwd".
Proof.
  apply (upload_keys_coincide_only_for_same_second_and_name Fake.new_year Fake.new_year
           "etc_passwd" "etc_passwd").
  - unfold valid_datetime; simpl; lia.
  - unfold valid_datetime; simpl; lia.
  - reflexivity.
Defined.

(** ** preview on objects that can be fetched *)

(** X14. When the object is fetched and its body read, text wins over
    images: if the declared content type starts with [text], or the key in
    lower case ends in [.txt] or [.log], [preview] returns the decoded body
    with status 200, even for a key that ends like an image; otherwise, if
    the key in lower case ends in [.png], [.jpg], [.jpeg] or [.gif], it
    returns with status 200 the page that points at
    [RGW_ENDPOINT/BUCKET_NAME/key], which does not depend on the bytes
    read. *)
Theorem preview_serves_text_before_images {World} (s3 : S3Client World)
    (BUCKET_NAME RGW_ENDPOINT : string) (decode_utf8_replace : list Byte.byte -> string)
    (key : string) (env : Env World) (obj : GetObjectOutput) (w : World)
    (data : list Byte.byte) :
  get_object s3 BUCKET_NAME key (world env) = (Ok obj, w) ->
  Body_read obj = Ok data ->
  (startswith (default "" (ContentType obj)) "text"
   || endswith_any (lower key) [".txt"; ".log"] = true ->
   preview s3 BUCKET_NAME RGW_ENDPOINT decode_utf8_replace key env
   = (Ok (Str (decode_utf8_replace data)), with_world env w))
  /\ (startswith (default "" (ContentType obj)) "text"
      || endswith_any (lower key) [".txt"; ".log"] = false ->
      endswith_any (lower key) [".png"; ".jpg"; ".jpeg"; ".gif"] = true ->
      preview s3 BUCKET_NAME RGW_ENDPOINT decode_utf8_replace key env
      = (Ok (Str (image_page BUCKET_NAME RGW_ENDPOINT key)), with_world env w)).
Proof.
  intros Hget Hread. rewrite preview_run, Hget. unfold fetched. rewrite Hread.
  split.
  - intros ->. reflexivity.
  - intros -> ->. reflexivity.
Qed.

Lemma preview_serves_text_before_images_witness :
  preview Fake.s3 default_BUCKET_NAME default_RGW_ENDPOINT (fun _ => "hi")
    "notes.png" (Fake.env_of notes_and_picture)
  = (Ok (Str "hi"),
     with_world (Fake.env_of notes_and_picture) (Fake.log "get_object" notes_and_picture))
  /\ preview Fake.s3 default_BUCKET_NAME default_RGW_ENDPOINT (fun _ => "hi")
       "HOLIDAY.JPG" (Fake.env_of notes_and_picture)
     = (Ok (Str (image_page default_BUCKET_NAME default_RGW_ENDPOINT "HOLIDAY.JPG")),
        with_world (Fake.env_of notes_and_picture)
          (Fake.log "get_object" notes_and_picture)).
Proof.
  split.
  - exact (proj1 (preview_serves_text_before_images Fake.s3 default_BUCKET_NAME
                    default_RGW_ENDPOINT (fun _ => "hi") "notes.png"
                    (Fake.env_of notes_and_picture) _ _ _ eq_refl eq_refl) eq_refl).
  - exact (proj2 (preview_serves_text_before_images Fake.s3 default_BUCKET_NAME
                    default_RGW_ENDPOINT (fun _ => "hi") "HOLIDAY.JPG"
                    (Fake.env_of notes_and_picture) _ _ _ eq_refl eq_refl)
                 eq_refl eq_refl).
Defined.

(** X15. [preview] never raises and reads only: for every key it returns a
    response whose status is 200, 400 or 500, and the only client call it
    makes is one [get_object]; nothing is printed or flashed. *)
Theorem preview_never_raises_and_only_reads {World} (s3 : S3Client World)
    (BUCKET_NAME RGW_ENDPOINT : string) (decode_utf8_replace : list Byte.byte -> string)
    (key : string) (env : Env World) :
  exists response,
    preview s3 BUCKET_NAME RGW_ENDPOINT decode_utf8_replace key env
    = (Ok response,
       {| world := snd (get_object s3 BUCKET_NAME key (world env));
          stdout := stdout env; flashes := flashes env |})
    /\ (status_code response = 200 \/ status_code response = 400
        \/ status_code response = 500).
Proof.
  rewrite preview_run.
  destruct (get_object s3 BUCKET_NAME key (world env)) as [r w]. cbn [snd].
  destruct (fetched r) as [[content_type data]|e].
  - destruct (startswith content_type "text" || endswith_any (lower key) [".txt"; ".log"]).
    + eexists. split; [reflexivity|]. by left.
    + destruct (endswith_any (lower key) [".png"; ".jpg"; ".jpeg"; ".gif"]).
      * eexists. split; [reflexivity|]. by left.
      * eexists. split; [reflexivity|]. by right; left.
  - eexists. split; [reflexivity|]. by right; right.
Qed.

(** ** The aggregate does not depend on the listing order *)

Lemma sum_sizes_Permutation (xs ys : list ObjectRecord) :
  xs ≡ₚ ys -> sum_sizes xs = sum_sizes ys.
Proof. unfold sum_sizes. induction 1; simpl; lia. Qed.

Lemma count_class_Permutation (c : string) (xs ys : list ObjectRecord) :
  xs ≡ₚ ys -> count_class c xs = count_class c ys.
Proof. intros Hperm. unfold count_class. by rewrite Hperm. Qed.

(** X16. Two runs of [get_bucket_info] whose record lists are permutations
    of each other return the same [total_bytes] and the same [sc_counts]:
    the totals do not depend on the order in which the gateway lists the
    objects. *)
Theorem totals_do_not_depend_on_listing_order {World World'} (s3 : S3Client World)
    (s3' : S3Client World') (BUCKET_NAME : string) (env env1 : Env World)
    (env' env1' : Env World') (objs objs' : list ObjectRecord) (total total' : Z)
    (counts counts' : gmap string nat) :
  get_bucket_info s3 BUCKET_NAME env = (Ok (objs, total, counts), env1) ->
  get_bucket_info s3' BUCKET_NAME env' = (Ok (objs', total', counts'), env1') ->
  objs ≡ₚ objs' ->
  total = total' /\ counts = counts'.
Proof.
  intros Hrun Hrun' Hperm.
  destruct (get_bucket_info_fold s3 BUCKET_NAME env) as (rs & e & Hfold & _).
  destruct (get_bucket_info_fold s3' BUCKET_NAME env') as (rs' & e' & Hfold' & _).
  rewrite Hfold in Hrun. rewrite Hfold' in Hrun'.
  injection Hrun as -> <- <- _. injection Hrun' as -> <- <- _.
  split; [by apply sum_sizes_Permutation|].
  apply map_eq. intros c.
  rewrite (histogram_of_records objs c), (histogram_of_records objs' c).
  by rewrite (count_class_Permutation c objs objs' Hperm).
Qed.

Lemma totals_do_not_depend_on_listing_order_witness :
  3145728 = 3145728
  /\ snd (match fst (get_bucket_info Fake.s3 default_BUCKET_NAME
                       (Fake.env_of Fake.two_objects)) with
          | Ok v => v
          | Raise _ => ([], 0, ∅)
          end)
     = snd (match fst (get_bucket_info Fake.s3 default_BUCKET_NAME
                         (Fake.env_of (Fake.world_of
                            [Fake.object "b.bin" 2097152 (Some "GLACIER");
                             Fake.object "a.txt" 1048576 None]))) with
            | Ok v => v
            | Raise _ => ([], 0, ∅)
            end).
Proof.
  apply (totals_do_not_depend_on_listing_order Fake.s3 Fake.s3 default_BUCKET_NAME
           (Fake.env_of Fake.two_objects) _
           (Fake.env_of (Fake.world_of [Fake.object "b.bin" 2097152 (Some "GLACIER");
                                        Fake.object "a.txt" 1048576 None])) _
           _ _ _ _ _ _ eq_refl eq_refl).
  apply perm_swap.
Defined.
